(** * iDotMatrix text module: a shallow embedding of [idotmatrix/modules/text.py]

    The development follows the Python source function by function.
    Python values are embedded as follows:
    - [int] is [Z];
    - [bytes] / [bytearray] is [list byte] (every element is in [range(256)]
      by construction, as in Python);
    - [str] is [string];
    - a raised exception is the [Raise] constructor of the [result] monad;
    - PIL images of mode ["1"] are a width, a height and a pixel predicate. *)

From Stdlib Require Import ZArith List String Ascii Bool Lia.
From Stdlib Require Import Strings.Byte.
From Equations Require Import Equations.
Import ListNotations.
Open Scope Z_scope.

(** ** Python built-ins used by the module *)

Module Py.

(** The exception classes that can surface in [text.py]. [OSError] is what
    [ImageFont.truetype] raises for an unreadable font file and
    [TransportError] stands for whatever the connection manager raises. *)
Inductive exn : Type :=
| ValueError
| IndexError
| OverflowError
| OSError
| TransportError (code : Z).

Inductive result (A : Type) : Type :=
| Ok (a : A)
| Raise (e : exn).
Arguments Ok {A} a.
Arguments Raise {A} e.

Definition bind {A B : Type} (c : result A) (k : A -> result B) : result B :=
  match c with
  | Ok a => k a
  | Raise e => Raise e
  end.

Definition is_ok {A : Type} (c : result A) : bool :=
  match c with Ok _ => true | Raise _ => false end.

Definition bytes : Type := list byte.

Definition int_of_byte (b : byte) : Z := Z.of_N (Byte.to_N b).

(** Storing an [int] into a [bytearray]: [ValueError] unless it is in
    [range(256)]. *)
Definition byte_of_int (z : Z) : result byte :=
  if (0 <=? z) && (z <? 256) then
    match Byte.of_N (Z.to_N z) with
    | Some b => Ok b
    | None => Raise ValueError
    end
  else Raise ValueError.

(** [bytearray([v0, v1, ...])] *)
Fixpoint bytearray_of_ints (l : list Z) : result bytes :=
  match l with
  | [] => Ok []
  | z :: tl =>
      bind (byte_of_int z) (fun b =>
      bind (bytearray_of_ints tl) (fun bs => Ok (b :: bs)))
  end.

(** [bytearray.append(v)] *)
Definition append (ba : bytes) (z : Z) : result bytes :=
  bind (byte_of_int z) (fun b => Ok (ba ++ [b])).

(** The low eight bits of a non-negative integer, as a byte. *)
Definition low_byte (z : Z) : byte :=
  match Byte.of_N (Z.to_N (Z.land z 255)) with
  | Some b => b
  | None => x00
  end.

(** [v.to_bytes(length, byteorder="little")] (unsigned): [OverflowError]
    for a negative [v] or one that does not fit. *)
Definition to_bytes (v : Z) (length : nat) : result bytes :=
  if v <? 0 then Raise OverflowError
  else if 256 ^ Z.of_nat length <=? v then Raise OverflowError
  else Ok (map (fun i => low_byte (Z.shiftr v (8 * Z.of_nat i))) (seq 0 length)).

(** [int.from_bytes(bs, "little")], used to read length fields back. *)
Fixpoint from_bytes (bs : bytes) : Z :=
  match bs with
  | [] => 0
  | b :: tl => int_of_byte b + 256 * from_bytes tl
  end.

Definition len {A : Type} (l : list A) : Z := Z.of_nat (List.length l).

(** Normalisation of one slice bound against a sequence of length [n]. *)
Definition clamp (n i : Z) : Z :=
  if i <? 0 then Z.max 0 (i + n) else Z.min i n.

(** [l[i:j]] *)
Definition slice {A : Type} (l : list A) (i j : Z) : list A :=
  let lo := clamp (len l) i in
  let hi := clamp (len l) j in
  firstn (Z.to_nat (hi - lo)) (skipn (Z.to_nat lo) l).

(** [l[i:j] = r] *)
Definition slice_assign {A : Type} (l : list A) (i j : Z) (r : list A) : list A :=
  let lo := clamp (len l) i in
  let hi := Z.max lo (clamp (len l) j) in
  firstn (Z.to_nat lo) l ++ r ++ skipn (Z.to_nat hi) l.

(** [l[i]], with Python's negative indexing. *)
Definition getitem {A : Type} (l : list A) (i : Z) : result A :=
  let k := if i <? 0 then i + len l else i in
  if (k <? 0) || (len l <=? k) then Raise IndexError
  else match nth_error l (Z.to_nat k) with
       | Some a => Ok a
       | None => Raise IndexError
       end.

(** [range(start, stop, step)]: [ValueError] for a zero step. *)
Definition range (start stop step : Z) : result (list Z) :=
  if step =? 0 then Raise ValueError
  else
    let n := if 0 <? step
             then (stop - start + step - 1) / step
             else (start - stop - step - 1) / (- step) in
    Ok (map (fun k => start + Z.of_nat k * step) (seq 0 (Z.to_nat n))).

(** [range(n)] *)
Definition range1 (n : Z) : list Z :=
  map Z.of_nat (seq 0 (Z.to_nat n)).

(** A [for] loop whose body may raise, threading the loop-carried
    variables as a state. *)
Fixpoint for_each {X S : Type} (xs : list X) (body : X -> S -> result S)
         (s : S) : result S :=
  match xs with
  | [] => Ok s
  | x :: tl => bind (body x s) (for_each tl body)
  end.

Fixpoint starts_with (l sub : bytes) : bool :=
  match sub, l with
  | [], _ => true
  | _ :: _, [] => false
  | s :: sub', b :: l' => Byte.eqb b s && starts_with l' sub'
  end.

(** The scan behind [bytes.count]: a match at the current position is
    counted and the scan resumes after it ([skip] positions are passed
    over), so occurrences never overlap. *)
Fixpoint count_scan (sub : bytes) (skip : nat) (l : bytes) : Z :=
  match l with
  | [] => 0
  | _ :: tl =>
      match skip with
      | S k => count_scan sub k tl
      | O =>
          if starts_with l sub
          then 1 + count_scan sub (List.length sub - 1) tl
          else count_scan sub 0 tl
      end
  end.

(** [l.count(sub)] *)
Definition count (l sub : bytes) : Z :=
  match sub with
  | [] => len l + 1
  | _ :: _ => count_scan sub 0 l
  end.

End Py.

Notation "x <- c ;; k" := (Py.bind c (fun x => k))
  (at level 61, c at next level, right associativity).
Notation "' pat <- c ;; k" := (Py.bind c (fun x => match x with pat => k end))
  (at level 61, pat pattern, c at next level, right associativity).

Import Py.

(** ** [zlib.crc32] *)

Module Zlib.

(** The reflected generator polynomial of CRC-32 (IEEE 802.3). *)
Definition poly : Z := 0xEDB88320.

Definition crc_bit (c : Z) : Z :=
  if Z.testbit c 0 then Z.lxor (Z.shiftr c 1) poly else Z.shiftr c 1.

Definition crc_byte (c : Z) (b : byte) : Z :=
  Nat.iter 8 crc_bit (Z.lxor c (int_of_byte b)).

(** [zlib.crc32(data)]: bit-serial CRC-32, initial value and final
    complement [0xFFFFFFFF]. *)
Definition crc32 (data : bytes) : Z :=
  Z.lxor (fold_left crc_byte data 0xFFFFFFFF) 0xFFFFFFFF.

End Zlib.

(** ** The part of PIL the module uses, for images of mode ["1"] *)

Module PIL.

Record Image : Type := mkImage {
  width : Z;
  height : Z;
  px : Z -> Z -> bool   (* [true]: the pixel is on *)
}.

Definition inside (im : Image) (x y : Z) : bool :=
  (0 <=? x) && (x <? width im) && (0 <=? y) && (y <? height im).

(** [Image.new("1", (w, h), 0)]: a negative dimension is a [ValueError]. *)
Definition new (w h : Z) : result Image :=
  if (w <? 0) || (h <? 0) then Raise ValueError
  else Ok (mkImage w h (fun _ _ => false)).

(** [im.size] *)
Definition size (im : Image) : Z * Z := (width im, height im).

(** [im.getpixel((x, y))]: a mode ["1"] pixel reads as 0 or 255; negative
    coordinates count from the far edge; outside the image it is an
    [IndexError]. *)
Definition getpixel (im : Image) (x y : Z) : result Z :=
  let x := if x <? 0 then width im + x else x in
  let y := if y <? 0 then height im + y else y in
  if inside im x y then Ok (if px im x y then 255 else 0)
  else Raise IndexError.

(** [dst.paste(src, (x, y))]: the source rectangle replaces the pixels
    under it; what falls outside [dst] is clipped. *)
Definition paste (dst src : Image) (x y : Z) : Image :=
  mkImage (width dst) (height dst)
    (fun a b =>
       if inside src (a - x) (b - y) then px src (a - x) (b - y)
       else px dst a b).

(** [im.crop((left, upper, right, lower))]: the part of the box outside
    [im] is off; an inverted box is a [ValueError]. *)
Definition crop (im : Image) (left upper right lower : Z) : result Image :=
  if (right <? left) || (lower <? upper) then Raise ValueError
  else Ok (mkImage (right - left) (lower - upper)
             (fun a b => inside im (left + a) (upper + b)
                         && px im (left + a) (upper + b))).

(** A loaded font: the bounding box of a string, the (ascent, descent)
    pair, and the ink of each character relative to the drawing origin
    (rendering may raise). *)
Record Font : Type := mkFont {
  getbbox : string -> Z * Z * Z * Z;
  getmetrics : Z * Z;
  ink : ascii -> result (Z -> Z -> bool)
}.

(** [ImageDraw.Draw(im).text((x, y), c, fill=1, font=font)] *)
Definition draw_text (im : Image) (x y : Z) (c : ascii) (font : Font)
  : result Image :=
  g <- ink font c ;;
  Ok (mkImage (width im) (height im)
        (fun a b => px im a b || (inside im a b && g (a - x) (b - y)))).

End PIL.

(** ** [class Text] *)

Module Text.

Definition image_width : Z := 16.
Definition image_height : Z := 32.
Definition separator : bytes := [x05; xff; xff; xff].

(** *** [_splitIntoChunks] *)
Definition _splitIntoChunks (data : bytes) (chunk_size : Z) : result (list bytes) :=
  idx <- range 0 (len data) chunk_size ;;
  Ok (map (fun i => slice data i (i + chunk_size)) idx).

(** *** [_buildStringPacket] *)
Definition _buildStringPacket (text_bitmaps : bytes)
           (text_mode speed text_color_mode : Z) (text_color : Z * Z * Z)
           (text_bg_mode : Z) (text_bg_color : Z * Z * Z) : result bytes :=
  let num_chars := count text_bitmaps separator in
  let '(fr, fg, fb) := text_color in
  let '(br, bg, bb) := text_bg_color in
  text_metadata <- bytearray_of_ints
    [0; 0; 0; 1; text_mode; speed; text_color_mode; fr; fg; fb;
     text_bg_mode; br; bg; bb] ;;
  nc <- to_bytes num_chars 2 ;;
  let text_metadata := slice_assign text_metadata 0 2 nc in
  let packet := text_metadata ++ text_bitmaps in
  header <- bytearray_of_ints [0; 0; 3; 0; 0; 0; 0; 0; 0; 0; 0; 0; 0; 0; 0; 12] ;;
  let total_len := len packet + len header in
  tl <- to_bytes total_len 2 ;;
  let header := slice_assign header 0 2 tl in
  pl <- to_bytes (len packet) 4 ;;
  let header := slice_assign header 5 9 pl in
  crc <- to_bytes (Zlib.crc32 packet) 4 ;;
  let header := slice_assign header 9 13 crc in
  Ok (header ++ packet).

(** *** [_ConstructBitMap]
    The loop-carried variables are [byte] and [bitmap]; [byte] is unbound
    in Python until the first [x % 8 == 0], which is the first iteration. *)

(** The body of the inner loop, at pixel [(x, y)]. *)
Definition pack_pixel (image : PIL.Image) (y x : Z) (st : Z * bytes)
  : result (Z * bytes) :=
  let '(byte, bitmap) := st in
  let byte := if x mod 8 =? 0 then 0 else byte in
  pixel <- PIL.getpixel image x y ;;
  let byte := Z.lor byte (Z.shiftl (Z.land pixel 1) (x mod 8)) in
  if x mod 8 =? 7
  then bitmap <- append bitmap byte ;; Ok (byte, bitmap)
  else Ok (byte, bitmap).

Definition _ConstructBitMap (image : PIL.Image) : result bytes :=
  '(_, bitmap) <-
    for_each (range1 32) (fun y => for_each (range1 16) (pack_pixel image y))
             (0, []) ;;
  Ok bitmap.

(** *** [_StringToBitmaps] *)

(** Lines 193-202: the [while left < padded_width] loop that crops
    16-pixel windows and packs each of them. *)
Equations? crop_loop (full_image : PIL.Image) (padded_width left_ : Z)
           (results : list bytes) : result (list bytes)
  by wf (Z.to_nat (padded_width - left_)) lt :=
  crop_loop full_image padded_width left_ results
    with Z_lt_dec left_ padded_width := {
    | right _ => Ok results
    | left _ =>
        result <- PIL.crop full_image left_ 0 (left_ + 16) 32 ;;
        bitmap <- _ConstructBitMap result ;;
        crop_loop full_image padded_width (left_ + 16) (results ++ [bitmap]) }.
Proof. lia. Qed.

Definition default_font_path : string := "./fonts/Rain-DRM3.otf".

(** Lines 172-177, the body of [for c in text]: one glyph cell is drawn
    and appended, and [total_width] grows by [char_width]. *)
Definition draw_cell (font : PIL.Font) (char_width : Z) (c : ascii)
           (st : list PIL.Image * Z) : result (list PIL.Image * Z) :=
  let '(char_images, total_width) := st in
  char_image <- PIL.new char_width 32 ;;
  char_image <- PIL.draw_text char_image 0 0 c font ;;
  Ok (char_images ++ [char_image], total_width + char_width).

(** Lines 189-191, the body of [for i, char in enumerate(char_images)]. *)
Definition paste_cell (width y : Z) (char : PIL.Image) (st : PIL.Image * Z)
  : result (PIL.Image * Z) :=
  let '(full_image, x) := st in
  Ok (PIL.paste full_image char x y, x + width).

Section FontSource.

(** [ImageFont.truetype(font_path, font_size)] *)
Variable truetype : string -> Z -> result PIL.Font.

(** Lines 160-191: the glyph cells and the padded composite image.
    Returns [full_image] together with [padded_width]. *)
Definition composite_strip (text : string) (font_path : option string)
           (font_size : option Z) : result (PIL.Image * Z) :=
  let font_path :=
    match font_path with
    | Some p => if String.eqb p "" then default_font_path else p
    | None => default_font_path
    end in
  let font_size :=
    match font_size with
    | Some s => if s =? 0 then 20 else s
    | None => 20
    end in
  font <- truetype font_path font_size ;;
  let '(b0, _, b2, _) := PIL.getbbox font "6" in
  let char_width := b2 - b0 in
  let '(ascent, descent) := PIL.getmetrics font in
  let char_height := ascent + descent in
  '(char_images, total_width) <-
    for_each (list_ascii_of_string text) (draw_cell font char_width) ([], 0) ;;
  let padded_width := total_width + (- total_width) mod 16 in
  first <- getitem char_images 0 ;;
  let '(width, height) := PIL.size first in
  full_image <- PIL.new padded_width 32 ;;
  let y := 16 - char_height / 2 in
  '(full_image, x) <-
    for_each char_images (paste_cell width y) (full_image, 0) ;;
  Ok (full_image, padded_width).

(** Lines 204-209: every bitmap is appended behind a separator. *)
Definition bytestream_of (results : list bytes) : bytes :=
  fold_left (fun bytestream bitmap => bytestream ++ [x05; xff; xff; xff] ++ bitmap)
            results [].

Definition _StringToBitmaps (text : string) (font_path : option string)
           (font_size : option Z) : result bytes :=
  '(full_image, padded_width) <- composite_strip text font_path font_size ;;
  results <- crop_loop full_image padded_width 0 [] ;;
  Ok (bytestream_of results).

End FontSource.

(** *** [setMode] *)

(** What [setMode] hands back: the packet, or [False]. *)
Inductive retval : Type :=
| RetData (data : bytes)
| RetFalse.

(** What an observer of one call sees besides the returned value: the
    link being established, a chunk accepted by [send], an error record
    written by [logging.error]. *)
Inductive event : Type :=
| Connected
| Sent (chunk : bytes)
| Logged (error : exn).

Section Transport.

(** The state of the link and of the peripheral behind it. *)
Variable World : Type.

(** Modelled from the spec: the connection manager
    ([idotmatrix/connectionManager.py], not among the sources at hand).
    It exposes [connect()], which establishes the link, and
    [send(chunk)], which delivers one chunk; either may fail. *)
Record ConnectionManager : Type := mkConn {
  connect : World -> result World;
  send : bytes -> World -> result World
}.

(** The object state: [self.conn]; [None] stands for a falsy value. *)
Record Self : Type := mkSelf { conn : option ConnectionManager }.

(** [__init__]: [self.conn = ConnectionManager()] *)
Definition __init__ (cm : ConnectionManager) : Self := mkSelf (Some cm).

(** Computations that act on the link and leave a trace; an exception
    keeps the state reached so far. *)
Definition io (A : Type) : Type :=
  World * list event -> result A * (World * list event).

Definition io_ret {A : Type} (a : A) : io A := fun s => (Ok a, s).

Definition io_bind {A B : Type} (c : io A) (k : A -> io B) : io B :=
  fun s =>
    match c s with
    | (Ok a, s') => k a s'
    | (Raise e, s') => (Raise e, s')
    end.

Definition lift {A : Type} (c : result A) : io A := fun s => (c, s).

Definition emit (ev : event) : io unit :=
  fun '(w, tr) => (Ok tt, (w, tr ++ [ev])).

(** [await self.conn.connect()] *)
Definition io_connect (cm : ConnectionManager) : io unit :=
  fun '(w, tr) =>
    match connect cm w with
    | Ok w' => (Ok tt, (w', tr ++ [Connected]))
    | Raise e => (Raise e, (w, tr))
    end.

(** [await self.conn.send(data=chunk)] *)
Definition io_send (cm : ConnectionManager) (chunk : bytes) : io unit :=
  fun '(w, tr) =>
    match send cm chunk w with
    | Ok w' => (Ok tt, (w', tr ++ [Sent chunk]))
    | Raise e => (Raise e, (w, tr))
    end.

Fixpoint io_for {X : Type} (xs : list X) (body : X -> io unit) : io unit :=
  match xs with
  | [] => io_ret tt
  | x :: tl => io_bind (body x) (fun _ => io_for tl body)
  end.

(** [try: body  except BaseException as error: handler] *)
Definition try_except {A : Type} (body : io A) (handler : exn -> io A) : io A :=
  fun s =>
    match body s with
    | (Ok a, s') => (Ok a, s')
    | (Raise e, s') => handler e s'
    end.

Variable truetype : string -> Z -> result PIL.Font.

(** Lines 35-47: the value bound to [data]. The argument
    [self._StringToBitmaps(...)] is evaluated before [_buildStringPacket]
    is entered. *)
Definition setMode_data (text : string) (font_size : Z)
           (font_path : option string) (text_mode speed text_color_mode : Z)
           (text_color : Z * Z * Z) (text_bg_mode : Z)
           (text_bg_color : Z * Z * Z) : result bytes :=
  text_bitmaps <- _StringToBitmaps truetype text font_path (Some font_size) ;;
  _buildStringPacket text_bitmaps text_mode speed text_color_mode
                     text_color text_bg_mode text_bg_color.

Definition setMode (self : Self) (text : string) (font_size : Z)
           (font_path : option string) (text_mode speed text_color_mode : Z)
           (text_color : Z * Z * Z) (text_bg_mode : Z)
           (text_bg_color : Z * Z * Z) : io retval :=
  try_except
    (io_bind
       (lift (setMode_data text font_size font_path text_mode speed
                           text_color_mode text_color text_bg_mode text_bg_color))
       (fun data =>
    io_bind
       (match conn self with
        | Some cm =>
            io_bind (io_connect cm) (fun _ =>
            io_bind (lift (_splitIntoChunks data 512)) (fun chunks =>
            io_for chunks (fun chunk => io_send cm chunk)))
        | None => io_ret tt
        end)
       (fun _ =>
    io_ret (RetData data))))
    (fun error =>
       io_bind (emit (Logged error)) (fun _ =>
       io_ret RetFalse)).

End Transport.

Arguments connect {World} _ _.
Arguments send {World} _ _ _.
Arguments conn {World} _.
Arguments __init__ {World} cm.
Arguments setMode {World} truetype self text font_size font_path text_mode speed
  text_color_mode text_color text_bg_mode text_bg_color _.

End Text.

Import Text.

(** ** Vocabulary of the statements *)

(** Chunk [k] of size [c], as index arithmetic on [nat]. *)
Definition chunk_at (c : nat) (data : bytes) (k : nat) : bytes :=
  firstn c (skipn (k * c) data).

(** The number of chunks: the ceiling of [len(data) / chunk_size]. *)
Definition chunk_count (data : bytes) (chunk_size : Z) : nat :=
  Z.to_nat ((len data + chunk_size - 1) / chunk_size).

(** The fourteen integers handed to [bytearray([...])] for the metadata. *)
Definition metadata_ints (text_mode speed text_color_mode : Z)
           (text_color : Z * Z * Z) (text_bg_mode : Z) (text_bg_color : Z * Z * Z)
  : list Z :=
  let '(fr, fg, fb) := text_color in
  let '(br, bg, bb) := text_bg_color in
  [0; 0; 0; 1; text_mode; speed; text_color_mode; fr; fg; fb;
   text_bg_mode; br; bg; bb].

(** The ten configuration values among them. *)
Definition config_ints (text_mode speed text_color_mode : Z)
           (text_color : Z * Z * Z) (text_bg_mode : Z) (text_bg_color : Z * Z * Z)
  : list Z :=
  skipn 4 (metadata_ints text_mode speed text_color_mode text_color
                         text_bg_mode text_bg_color).

Definition in_byte_range (z : Z) : Prop := 0 <= z < 256.

(** Eight pixels as one byte, the first pixel in the least significant bit. *)
Definition pack8 (p : Z -> bool) : Z :=
  fold_left (fun byte k => Z.lor byte (Z.shiftl (Z.b2z (p k)) k)) (range1 8) 0.

(** The two bytes of row [y] of a 16-pixel window with pixels [p]. *)
Definition packed_row (p : Z -> Z -> bool) (y : Z) : bytes :=
  [low_byte (pack8 (fun k => p k y)); low_byte (pack8 (fun k => p (8 + k) y))].

(** The 64 bytes of a 16x32 window, rows from the top. *)
Definition packed_block (p : Z -> Z -> bool) : bytes :=
  flat_map (packed_row p) (range1 32).

(** The window of a strip that starts at column [left]. *)
Definition window (strip : PIL.Image) (left : Z) : Z -> Z -> bool :=
  fun a b => PIL.inside strip (left + a) b && PIL.px strip (left + a) b.

(** The cell width: the width of the bounding box of the reference
    glyph ["6"]. *)
Definition cell_width (font : PIL.Font) : Z :=
  let '(b0, _, b2, _) := PIL.getbbox font "6" in b2 - b0.

(** The vertical offset at which the cells are pasted. *)
Definition cell_top (font : PIL.Font) : Z :=
  let '(ascent, descent) := PIL.getmetrics font in 16 - (ascent + descent) / 2.

(** What [draw_cell] appends for character [c]: a [W] x 32 cell holding
    the ink of [c] clipped to the cell. *)
Definition is_cell_of (font : PIL.Font) (W : Z) (c : ascii) (cell : PIL.Image)
  : Prop :=
  PIL.width cell = W /\ PIL.height cell = 32
  /\ exists g, PIL.ink font c = Ok g
               /\ forall a b, PIL.px cell a b = PIL.inside cell a b && g (a - 0) (b - 0).

(** A strip the packer accepts: 32 pixels high, a multiple of 16 wide. *)
Definition valid_strip (strip : PIL.Image) : Prop :=
  PIL.height strip = 32 /\ 0 <= PIL.width strip /\ PIL.width strip mod 16 = 0.

(** [sends cm chunks w w']: [send] accepts the chunks one after the
    other, taking the link from state [w] to state [w']. *)
Inductive sends {World : Type} (cm : ConnectionManager World)
  : list bytes -> World -> World -> Prop :=
| sends_nil (w : World) : sends cm [] w w
| sends_cons (chunk : bytes) (chunks : list bytes) (w w1 w' : World) :
    send cm chunk w = Ok w1 -> sends cm chunks w1 w' ->
    sends cm (chunk :: chunks) w w'.

(** The loop invariant of [_ConstructBitMap]: between two byte boundaries
    the partial byte holds only the bits packed so far. *)
Definition partial_byte (x : Z) (st : Z * bytes) : Prop :=
  0 <= x /\ (x mod 8 = 0 \/ 0 <= fst st < 2 ^ (x mod 8)).

(** No position of [block] starts the four bytes of the separator. *)
Definition separator_free (block : bytes) : Prop :=
  forall k, starts_with (skipn k block) separator = false.

(** What can follow a block in the stream: nothing, or a separator. *)
Definition stream_tail (rest : bytes) : Prop :=
  rest = [] \/ exists r, rest = x05 :: r.

(** ** Sample inputs *)

(** A packet-sized buffer of 600 bytes. *)
Definition packet_600 : bytes := repeat x00 600.

(** One blank glyph block behind its separator. *)
Definition blank_bitmaps : bytes := separator ++ repeat x00 64.

(** The packet of the blank block under the default configuration of
    [setMode]. *)
Definition blank_packet : bytes :=
  [x62; x00; x03; x00; x00; x52; x00; x00; x00; xe4; x6f; x46; x05; x00; x00; x0c;
   x01; x00; x00; x01; x01; x5f; x01; xff; x00; x00; x00; x00; xff; x00]
  ++ blank_bitmaps.

(** The same with display mode 200, which no option list mentions. *)
Definition mode200_packet : bytes :=
  [x62; x00; x03; x00; x00; x52; x00; x00; x00; x86; x2a; x0d; xc5; x00; x00; x0c;
   x01; x00; x00; x01; xc8; x5f; x01; xff; x00; x00; x00; x00; xff; x00]
  ++ blank_bitmaps.

(** A 32x32 checkerboard: two windows wide. *)
Definition checker_strip : PIL.Image :=
  PIL.mkImage 32 32 (fun x y => Z.even (x + y)).

(** A font with 10-pixel cells, 24 pixels of line height, and a diagonal
    stripe pattern as the ink of every character. *)
Definition stripe_font : PIL.Font :=
  PIL.mkFont (fun _ => (0, 0, 10, 20)) (20, 4)
             (fun _ => Ok (fun x y => (x + y) mod 3 =? 0)).

(** A font with 16-pixel cells and 32 pixels of line height whose glyphs
    have, in their two top rows, the pixels 0, 2 and 8..15 and then all
    sixteen pixels on. *)
Definition seam_font : PIL.Font :=
  PIL.mkFont (fun _ => (0, 0, 16, 32)) (26, 6)
             (fun _ => Ok (fun x y =>
                ((y =? 0) && ((x =? 0) || (x =? 2) || (8 <=? x)))
                || (y =? 1))).

(** A link that accepts every call and counts them. *)
Definition steady_link : ConnectionManager nat :=
  mkConn nat (fun w => Ok (S w)) (fun _ w => Ok (S w)).

(** A link that connects and then refuses every chunk. *)
Definition broken_link : ConnectionManager nat :=
  mkConn nat (fun w => Ok (S w)) (fun _ _ => Raise (TransportError 1)).

(** * Properties *)

(** ** Facts about the Python built-ins *)

Section PyFacts.

Lemma int_of_byte_range (b : byte) : 0 <= int_of_byte b < 256.
Proof.
  unfold int_of_byte. pose proof (Byte.to_N_bounded b) as H.
  apply N.leb_le in H. apply N.leb_le in H. lia.
Qed.

Lemma byte_of_int_Ok (z : Z) (b : byte) :
  byte_of_int z = Ok b -> int_of_byte b = z /\ 0 <= z < 256.
Proof.
  unfold byte_of_int, int_of_byte.
  destruct ((0 <=? z) && (z <? 256)) eqn:E; [| discriminate].
  apply andb_true_iff in E as [E1 E2].
  apply Z.leb_le in E1. apply Z.ltb_lt in E2.
  destruct (Byte.of_N (Z.to_N z)) eqn:F; [| discriminate].
  intros [= <-]. apply Byte.to_of_N in F. rewrite F. lia.
Qed.

Lemma byte_of_int_in_range (z : Z) :
  0 <= z < 256 -> exists b, byte_of_int z = Ok b /\ int_of_byte b = z.
Proof.
  intros Hz. unfold byte_of_int.
  replace ((0 <=? z) && (z <? 256)) with true
    by (symmetry; apply andb_true_iff; split; [apply Z.leb_le | apply Z.ltb_lt]; lia).
  destruct (Byte.of_N (Z.to_N z)) eqn:F.
  - exists b. split; [reflexivity |].
    unfold int_of_byte. apply Byte.to_of_N in F. rewrite F. lia.
  - apply Byte.of_N_None_iff in F. lia.
Qed.

Lemma byte_of_int_out_of_range (z : Z) :
  ~ (0 <= z < 256) -> byte_of_int z = Raise ValueError.
Proof.
  intros Hz. unfold byte_of_int.
  destruct ((0 <=? z) && (z <? 256)) eqn:E; [| reflexivity].
  apply andb_true_iff in E as [E1 E2].
  apply Z.leb_le in E1. apply Z.ltb_lt in E2. lia.
Qed.

Lemma byte_of_int_Raise (z : Z) (e : exn) :
  byte_of_int z = Raise e -> e = ValueError /\ ~ (0 <= z < 256).
Proof.
  intros H. destruct (Z_le_dec 0 z) as [H0 |]; [destruct (Z_lt_dec z 256) as [H1 |] |].
  - destruct (byte_of_int_in_range z) as (b & Hb & _); [lia | congruence].
  - rewrite byte_of_int_out_of_range in H by lia. split; [congruence | lia].
  - rewrite byte_of_int_out_of_range in H by lia. split; [congruence | lia].
Qed.

(** [bytearray([...])] keeps every value as it is. *)
Lemma bytearray_of_ints_Ok (l : list Z) (bs : bytes) :
  bytearray_of_ints l = Ok bs ->
  map int_of_byte bs = l /\ Forall (fun z => 0 <= z < 256) l.
Proof.
  revert bs. induction l as [| z l IH]; intros bs H; simpl in H.
  - injection H as <-. split; constructor.
  - destruct (byte_of_int z) as [b |] eqn:Hb; [| discriminate]. simpl in H.
    destruct (bytearray_of_ints l) as [bs' |] eqn:Hl; [| discriminate]. simpl in H.
    injection H as <-. apply byte_of_int_Ok in Hb as [Hb Hz].
    destruct (IH bs' eq_refl) as [IH1 IH2].
    split; [simpl; congruence | constructor; assumption].
Qed.

Lemma bytearray_of_ints_in_range (l : list Z) :
  Forall (fun z => 0 <= z < 256) l ->
  exists bs, bytearray_of_ints l = Ok bs /\ map int_of_byte bs = l.
Proof.
  induction 1 as [| z l Hz _ (bs & IH1 & IH2)].
  - exists []. split; reflexivity.
  - destruct (byte_of_int_in_range z Hz) as (b & Hb & Hb').
    exists (b :: bs). simpl. rewrite Hb. simpl. rewrite IH1. simpl.
    split; [reflexivity | congruence].
Qed.

(** The only exception of [bytearray([...])] is [ValueError], raised
    exactly when some value is not in [range(256)]. *)
Lemma bytearray_of_ints_Raise (l : list Z) (e : exn) :
  bytearray_of_ints l = Raise e ->
  e = ValueError /\ ~ Forall (fun z => 0 <= z < 256) l.
Proof.
  induction l as [| z l IH]; simpl; [discriminate |].
  destruct (byte_of_int z) as [b |] eqn:Hb; simpl.
  - destruct (bytearray_of_ints l) as [bs |]; simpl; [discriminate |].
    intros [= <-]. destruct (IH eq_refl) as [-> Hn].
    split; [reflexivity |]. intros HF. inversion HF. auto.
  - intros [= <-]. apply byte_of_int_Raise in Hb as [-> Hn].
    split; [reflexivity |]. intros HF. inversion HF. auto.
Qed.

Lemma low_byte_value (z : Z) : int_of_byte (low_byte z) = z mod 256.
Proof.
  unfold low_byte, int_of_byte.
  change 255 with (Z.ones 8). rewrite Z.land_ones by lia.
  change (2 ^ 8) with 256.
  pose proof (Z.mod_pos_bound z 256 ltac:(lia)) as Hm.
  destruct (Byte.of_N (Z.to_N (z mod 256))) eqn:F.
  - apply Byte.to_of_N in F. rewrite F. lia.
  - apply Byte.of_N_None_iff in F. lia.
Qed.

Lemma from_bytes_little (v : Z) (n k : nat) :
  from_bytes (map (fun i => low_byte (Z.shiftr v (8 * Z.of_nat i))) (seq k n))
  = Z.shiftr v (8 * Z.of_nat k) mod 256 ^ Z.of_nat n.
Proof.
  revert k. induction n as [| n IH]; intros k.
  - simpl. rewrite Z.mod_1_r. reflexivity.
  - cbn [seq map from_bytes]. rewrite IH, low_byte_value.
    replace (8 * Z.of_nat (S k)) with (8 * Z.of_nat k + 8) by lia.
    rewrite <- Z.shiftr_shiftr by lia.
    set (w := Z.shiftr v (8 * Z.of_nat k)).
    rewrite (Z.shiftr_div_pow2 w 8) by lia. change (2 ^ 8) with 256.
    replace (256 ^ Z.of_nat (S n)) with (256 * 256 ^ Z.of_nat n)
      by (rewrite Nat2Z.inj_succ, Z.pow_succ_r by lia; reflexivity).
    rewrite Z.rem_mul_r by lia. reflexivity.
Qed.

(** [to_bytes] succeeds exactly on the values that fit, and reading the
    bytes back gives the value. *)
Lemma to_bytes_Ok (v : Z) (n : nat) (bs : bytes) :
  to_bytes v n = Ok bs ->
  List.length bs = n /\ from_bytes bs = v /\ 0 <= v < 256 ^ Z.of_nat n.
Proof.
  unfold to_bytes.
  destruct (v <? 0) eqn:E1; [discriminate |].
  destruct (256 ^ Z.of_nat n <=? v) eqn:E2; [discriminate |].
  apply Z.ltb_ge in E1. apply Z.leb_gt in E2.
  intros [= <-]. split; [| split; [| lia]].
  - rewrite length_map, length_seq. reflexivity.
  - rewrite from_bytes_little. simpl (8 * Z.of_nat 0). rewrite Z.shiftr_0_r.
    apply Z.mod_small. lia.
Qed.

Lemma to_bytes_fits (v : Z) (n : nat) :
  0 <= v < 256 ^ Z.of_nat n -> exists bs, to_bytes v n = Ok bs.
Proof.
  intros Hv. unfold to_bytes.
  destruct (v <? 0) eqn:E1; [apply Z.ltb_lt in E1; lia |].
  destruct (256 ^ Z.of_nat n <=? v) eqn:E2; [apply Z.leb_le in E2; lia |].
  eexists. reflexivity.
Qed.

Lemma to_bytes_Raise (v : Z) (n : nat) (e : exn) :
  to_bytes v n = Raise e -> e = OverflowError /\ ~ (0 <= v < 256 ^ Z.of_nat n).
Proof.
  unfold to_bytes.
  destruct (v <? 0) eqn:E1.
  - intros [= <-]. apply Z.ltb_lt in E1. split; [reflexivity | lia].
  - destruct (256 ^ Z.of_nat n <=? v) eqn:E2; [| discriminate].
    intros [= <-]. apply Z.leb_le in E2. split; [reflexivity | lia].
Qed.

End PyFacts.

(** ** Slices *)

Section SliceFacts.

Context {A : Type}.
Implicit Types l r : list A.

Lemma firstn_plus (a b : nat) l :
  firstn (a + b) l = firstn a l ++ firstn b (skipn a l).
Proof.
  revert l. induction a as [| a IH]; intros [| x l]; simpl;
    rewrite ?firstn_nil; try reflexivity.
  rewrite IH. reflexivity.
Qed.

(** A slice with sorted non-negative bounds is a [firstn] of a [skipn],
    whatever the length of the sequence. *)
Lemma slice_nonneg l (i j : Z) :
  0 <= i <= j ->
  slice l i j = firstn (Z.to_nat (j - i)) (skipn (Z.to_nat i) l).
Proof.
  intros Hij. unfold slice, clamp, len.
  destruct (i <? 0) eqn:Ei; [apply Z.ltb_lt in Ei; lia |].
  destruct (j <? 0) eqn:Ej; [apply Z.ltb_lt in Ej; lia |].
  destruct (Z_le_dec (Z.of_nat (List.length l)) i) as [Hbig | Hsmall].
  - rewrite !skipn_all2 by lia. rewrite !firstn_nil. reflexivity.
  - replace (Z.min i (Z.of_nat (List.length l))) with i by lia.
    destruct (Z_le_dec j (Z.of_nat (List.length l))) as [Hj | Hj].
    + replace (Z.min j (Z.of_nat (List.length l))) with j by lia. reflexivity.
    + replace (Z.min j (Z.of_nat (List.length l))) with (Z.of_nat (List.length l)) by lia.
      rewrite !firstn_all2; [reflexivity | |]; rewrite length_skipn; lia.
Qed.

Lemma slice_assign_inner l r (i j : Z) :
  0 <= i <= j -> j <= len l ->
  slice_assign l i j r = firstn (Z.to_nat i) l ++ r ++ skipn (Z.to_nat j) l.
Proof.
  intros Hij Hj. unfold slice_assign, clamp, len in *.
  destruct (i <? 0) eqn:Ei; [apply Z.ltb_lt in Ei; lia |].
  destruct (j <? 0) eqn:Ej; [apply Z.ltb_lt in Ej; lia |].
  replace (Z.min i (Z.of_nat (List.length l))) with i by lia.
  replace (Z.max i (Z.min j (Z.of_nat (List.length l)))) with j by lia.
  reflexivity.
Qed.

Lemma slice_assign_prefix l r (j : Z) :
  0 <= j <= len l ->
  slice_assign l 0 j r = r ++ skipn (Z.to_nat j) l.
Proof.
  intros Hj. rewrite slice_assign_inner by lia. reflexivity.
Qed.

End SliceFacts.

(** ** The transport chunker *)

Section Chunks.

Lemma concat_chunks (c : nat) (data : bytes) (m : nat) :
  List.concat (map (chunk_at c data) (seq 0 m)) = firstn (m * c) data.
Proof.
  induction m as [| m IH].
  - reflexivity.
  - rewrite seq_S, map_app, concat_app, IH. simpl.
    rewrite app_nil_r. unfold chunk_at.
    replace (c + m * c)%nat with (m * c + c)%nat by lia.
    symmetry. apply firstn_plus.
Qed.

Lemma length_chunk_at (c : nat) (data : bytes) (k : nat) :
  List.length (chunk_at c data k) = Nat.min c (List.length data - k * c).
Proof. unfold chunk_at. rewrite length_firstn, length_skipn. reflexivity. Qed.

Lemma chunk_count_bounds (data : bytes) (chunk_size : Z) :
  1 <= chunk_size ->
  let m := Z.of_nat (chunk_count data chunk_size) in
  len data <= m * chunk_size < len data + chunk_size.
Proof.
  intros Hc. unfold chunk_count, len.
  set (n := Z.of_nat (List.length data)).
  assert (Hn : 0 <= n) by (subst n; lia).
  pose proof (Z.div_mod (n + chunk_size - 1) chunk_size ltac:(lia)) as Hdm.
  pose proof (Z.mod_pos_bound (n + chunk_size - 1) chunk_size ltac:(lia)) as Hmb.
  assert (Hq : 0 <= (n + chunk_size - 1) / chunk_size)
    by (apply Z.div_pos; lia).
  cbv zeta. rewrite Z2Nat.id by assumption. nia.
Qed.

Lemma _splitIntoChunks_eq (data : bytes) (chunk_size : Z) :
  1 <= chunk_size ->
  _splitIntoChunks data chunk_size
  = Ok (map (chunk_at (Z.to_nat chunk_size) data)
            (seq 0 (chunk_count data chunk_size))).
Proof.
  intros Hc. unfold _splitIntoChunks, range.
  destruct (chunk_size =? 0) eqn:E0; [apply Z.eqb_eq in E0; lia |].
  destruct (0 <? chunk_size) eqn:E1; [| apply Z.ltb_ge in E1; lia].
  cbn [bind]. rewrite map_map. apply f_equal.
  unfold chunk_count. rewrite Z.sub_0_r.
  apply map_ext. intros k. rewrite Z.add_0_l, slice_nonneg by nia.
  unfold chunk_at. f_equal; [f_equal; lia |].
  f_equal. rewrite Z2Nat.inj_mul, Nat2Z.id by lia. reflexivity.
Qed.

(** Chunking loses nothing: the chunks concatenate back to the data. *)
Lemma _splitIntoChunks_concat (data : bytes) (chunk_size : Z) :
  1 <= chunk_size ->
  exists chunks,
    _splitIntoChunks data chunk_size = Ok chunks /\ List.concat chunks = data.
Proof.
  intros Hc. eexists. split; [apply _splitIntoChunks_eq; exact Hc |].
  pose proof (chunk_count_bounds data chunk_size Hc) as Hm. cbv zeta in Hm.
  rewrite concat_chunks. apply firstn_all2. unfold len in Hm. nia.
Qed.

End Chunks.

(** C3. For a chunk size of at least 1 (512 in [setMode]),
    [_splitIntoChunks] returns the consecutive slices of the packet in
    order: chunk [k] is the [chunk_size] bytes from offset
    [k * chunk_size], every chunk but the last has exactly [chunk_size]
    bytes, every chunk has between 1 and [chunk_size] bytes (so an empty
    packet gives no chunk at all), and the concatenation of the chunks is
    the packet. *)
Theorem splitIntoChunks_consecutive_slices (data : bytes) (chunk_size : Z) :
  1 <= chunk_size ->
  exists chunks,
    _splitIntoChunks data chunk_size = Ok chunks
    /\ List.concat chunks = data
    /\ (forall k, (k < List.length chunks)%nat ->
          nth k chunks [] = slice data (Z.of_nat k * chunk_size)
                                       (Z.of_nat k * chunk_size + chunk_size))
    /\ Forall (fun chunk => 1 <= len chunk <= chunk_size) chunks
    /\ (forall k, (S k < List.length chunks)%nat -> len (nth k chunks []) = chunk_size)
    /\ (data = [] -> chunks = []).
Proof.
  intros Hc. eexists. split; [apply _splitIntoChunks_eq; assumption |].
  pose proof (chunk_count_bounds data chunk_size Hc) as Hm. cbv zeta in Hm.
  set (m := chunk_count data chunk_size) in *.
  set (c := Z.to_nat chunk_size).
  assert (Hcz : Z.of_nat c = chunk_size) by (subst c; lia).
  assert (Hlen : forall k, (k < m)%nat ->
            nth k (map (chunk_at c data) (seq 0 m)) [] = chunk_at c data k).
  { intros k Hk.
    rewrite (nth_indep _ [] (chunk_at c data 0)) by (rewrite length_map, length_seq; lia).
    rewrite map_nth, seq_nth by lia. reflexivity. }
  repeat split.
  - rewrite concat_chunks. apply firstn_all2. unfold len in Hm. nia.
  - intros k Hk. rewrite length_map, length_seq in Hk. rewrite Hlen by assumption.
    rewrite slice_nonneg by nia. unfold chunk_at. f_equal; [lia |].
    f_equal. subst c. rewrite Z2Nat.inj_mul, Nat2Z.id by lia. reflexivity.
  - apply Forall_forall. intros chunk Hin.
    apply in_map_iff in Hin as (k & <- & Hk). apply in_seq in Hk.
    unfold len in *. rewrite length_chunk_at. nia.
  - intros k Hk. rewrite length_map, length_seq in Hk. rewrite Hlen by lia.
    unfold len in *. rewrite length_chunk_at. nia.
  - intros ->. unfold len in Hm. simpl in Hm.
    assert (m = 0)%nat as -> by nia. reflexivity.
Qed.

Lemma splitIntoChunks_600 :
  1 <= 512
  /\ exists chunks,
       _splitIntoChunks packet_600 512 = Ok chunks
       /\ List.concat chunks = packet_600
       /\ map (@List.length byte) chunks = [512; 88]%nat.
Proof.
  split; [lia |].
  destruct (splitIntoChunks_consecutive_slices packet_600 512) as (chunks & H1 & H2 & _);
    [lia |].
  exists chunks. split; [exact H1 | split; [exact H2 |]].
  assert (E : _splitIntoChunks packet_600 512 = Ok [repeat x00 512; repeat x00 88])
    by (vm_compute; reflexivity).
  rewrite E in H1. injection H1 as <-. reflexivity.
Defined.

(** ** The packet framer *)

Section Framer.

Lemma length_2_inv {A : Type} (l : list A) :
  List.length l = 2%nat -> exists a b, l = [a; b].
Proof.
  destruct l as [| a [| b [| ? ?]]]; try discriminate. intros _. eauto.
Qed.

Lemma length_4_inv {A : Type} (l : list A) :
  List.length l = 4%nat -> exists a b c d, l = [a; b; c; d].
Proof.
  destruct l as [| a [| b [| c [| d [| ? ?]]]]]; try discriminate.
  intros _. eauto 6.
Qed.

Variables (text_bitmaps : bytes) (text_mode speed text_color_mode : Z)
          (text_color : Z * Z * Z) (text_bg_mode : Z) (text_bg_color : Z * Z * Z).

(** The shape of every packet the framer returns. *)
Lemma _buildStringPacket_Ok (packet : bytes) :
  _buildStringPacket text_bitmaps text_mode speed text_color_mode
                     text_color text_bg_mode text_bg_color = Ok packet ->
  exists n0 n1 rest t0 t1 p0 p1 p2 p3 c0 c1 c2 c3,
    let text_metadata := n0 :: n1 :: rest in
    let body := text_metadata ++ text_bitmaps in
    packet = [t0; t1; x03; x00; x00; p0; p1; p2; p3; c0; c1; c2; c3; x00; x00; x0c]
             ++ body
    /\ [0; 0] ++ map int_of_byte rest
     = metadata_ints text_mode speed text_color_mode text_color
                     text_bg_mode text_bg_color
    /\ from_bytes [n0; n1] = count text_bitmaps separator
    /\ from_bytes [t0; t1] = len body + 16
    /\ from_bytes [p0; p1; p2; p3] = len body
    /\ from_bytes [c0; c1; c2; c3] = Zlib.crc32 body.
Proof.
  unfold _buildStringPacket, metadata_ints.
  destruct text_color as [[fr fg] fb], text_bg_color as [[br bg] bb].
  destruct (bytearray_of_ints _) as [md |] eqn:Hmd; [| discriminate]. cbn [bind].
  apply bytearray_of_ints_Ok in Hmd as [Hmd _].
  destruct md as [| m0 [| m1 rest]]; try discriminate Hmd.
  injection Hmd as _ _ Hrest.
  destruct (to_bytes (count text_bitmaps separator) 2) as [nc |] eqn:Hnc;
    [| discriminate]. cbn [bind].
  apply to_bytes_Ok in Hnc as (Hl & Hnc & _).
  apply length_2_inv in Hl as (n0 & n1 & ->).
  assert (Hlen : List.length rest = 12%nat)
    by (apply (f_equal (@List.length Z)) in Hrest; rewrite length_map in Hrest;
        exact Hrest).
  rewrite slice_assign_prefix
    by (unfold len; cbn [List.length]; rewrite Hlen; lia).
  change (skipn (Z.to_nat 2) (m0 :: m1 :: rest)) with rest.
  change (bytearray_of_ints [0; 0; 3; 0; 0; 0; 0; 0; 0; 0; 0; 0; 0; 0; 0; 12])
    with (Ok [x00; x00; x03; x00; x00; x00; x00; x00; x00; x00; x00; x00; x00;
              x00; x00; x0c]).
  cbn [bind].
  set (body := ([n0; n1] ++ rest) ++ text_bitmaps).
  destruct (to_bytes _ 2) as [tl |] eqn:Htl; [| discriminate]. cbn [bind].
  apply to_bytes_Ok in Htl as (Hl & Htl & _).
  apply length_2_inv in Hl as (t0 & t1 & ->).
  destruct (to_bytes (len body) 4) as [pl |] eqn:Hpl; [| discriminate]. cbn [bind].
  apply to_bytes_Ok in Hpl as (Hl & Hpl & _).
  apply length_4_inv in Hl as (p0 & p1 & p2 & p3 & ->).
  destruct (to_bytes (Zlib.crc32 body) 4) as [crc |] eqn:Hcrc; [| discriminate].
  cbn [bind].
  apply to_bytes_Ok in Hcrc as (Hl & Hcrc & _).
  apply length_4_inv in Hl as (c0 & c1 & c2 & c3 & ->).
  intros [= <-].
  exists n0, n1, rest, t0, t1, p0, p1, p2, p3, c0, c1, c2, c3.
  cbv zeta. repeat split; try assumption.
  cbn [app]. f_equal. f_equal. exact Hrest.
Qed.

End Framer.

(** ** The checksum stays within 32 bits *)

Section Crc.

Lemma lxor_below (n a b : Z) :
  0 <= n -> 0 <= a < 2 ^ n -> 0 <= b < 2 ^ n -> 0 <= Z.lxor a b < 2 ^ n.
Proof.
  intros Hn Ha Hb.
  rewrite <- (Z.mod_small a (2 ^ n)), <- (Z.mod_small b (2 ^ n)) by assumption.
  rewrite <- !Z.land_ones by assumption.
  replace (Z.lxor (Z.land a (Z.ones n)) (Z.land b (Z.ones n)))
    with (Z.land (Z.lxor a b) (Z.ones n)).
  2:{ apply Z.bits_inj'. intros k _.
      rewrite Z.lxor_spec, !Z.land_spec, Z.lxor_spec.
      destruct (Z.testbit a k), (Z.testbit b k), (Z.testbit (Z.ones n) k);
        reflexivity. }
  rewrite Z.land_ones by assumption.
  apply Z.mod_pos_bound. apply Z.pow_pos_nonneg; lia.
Qed.

Lemma crc_bit_range (c : Z) :
  0 <= c < 2 ^ 32 -> 0 <= Zlib.crc_bit c < 2 ^ 32.
Proof.
  intros Hc. unfold Zlib.crc_bit.
  assert (Hs : 0 <= Z.shiftr c 1 < 2 ^ 32).
  { rewrite Z.shiftr_div_pow2 by lia. change (2 ^ 1) with 2.
    split; [apply Z.div_pos; lia |].
    apply Z.div_lt_upper_bound; lia. }
  destruct (Z.testbit c 0); [| exact Hs].
  apply lxor_below; [lia | exact Hs | unfold Zlib.poly; lia].
Qed.

Lemma crc_byte_range (c : Z) (b : byte) :
  0 <= c < 2 ^ 32 -> 0 <= Zlib.crc_byte c b < 2 ^ 32.
Proof.
  intros Hc. unfold Zlib.crc_byte.
  assert (H0 : 0 <= Z.lxor c (int_of_byte b) < 2 ^ 32).
  { apply lxor_below; [lia | exact Hc |].
    pose proof (int_of_byte_range b). lia. }
  revert H0. generalize (Z.lxor c (int_of_byte b)) as x. intros x Hx.
  do 8 (cbn [Nat.iter nat_rect]; apply crc_bit_range). exact Hx.
Qed.

Lemma crc32_range (data : bytes) : 0 <= Zlib.crc32 data < 2 ^ 32.
Proof.
  unfold Zlib.crc32.
  assert (H : forall c, 0 <= c < 2 ^ 32 ->
                        0 <= fold_left Zlib.crc_byte data c < 2 ^ 32).
  { induction data as [| b data IH]; intros c Hc; simpl; [exact Hc |].
    apply IH, crc_byte_range, Hc. }
  apply lxor_below; [lia | apply H; lia | lia].
Qed.

End Crc.

(** ** Counting occurrences *)

Section Count.

Lemma count_scan_nonneg (sub l : bytes) (skip : nat) : 0 <= count_scan sub skip l.
Proof.
  revert skip. induction l as [| b l IH]; intros skip; cbn [count_scan]; [lia |].
  destruct skip as [| k]; [| apply IH].
  destruct (starts_with (b :: l) sub).
  - specialize (IH (List.length sub - 1)%nat). lia.
  - apply IH.
Qed.

Lemma count_nonneg (l sub : bytes) : 0 <= count l sub.
Proof.
  unfold count. destruct sub; [unfold len; lia | apply count_scan_nonneg].
Qed.

End Count.

(** ** When the framer returns and when it raises *)

Section FramerOutcome.

Variables (text_bitmaps : bytes) (text_mode speed text_color_mode : Z)
          (text_color : Z * Z * Z) (text_bg_mode : Z) (text_bg_color : Z * Z * Z).

Let build : result bytes :=
  _buildStringPacket text_bitmaps text_mode speed text_color_mode
                     text_color text_bg_mode text_bg_color.
Let config : list Z :=
  config_ints text_mode speed text_color_mode text_color text_bg_mode text_bg_color.
Let metadata : list Z :=
  metadata_ints text_mode speed text_color_mode text_color text_bg_mode text_bg_color.

Lemma metadata_in_range_iff :
  Forall in_byte_range metadata <-> Forall in_byte_range config.
Proof.
  clear build. subst metadata config. unfold config_ints, metadata_ints.
  destruct text_color as [[fr fg] fb], text_bg_color as [[br bg] bb].
  cbn [skipn]. split; intros H.
  - do 4 (apply Forall_inv_tail in H). exact H.
  - repeat (constructor; [unfold in_byte_range; lia |]). exact H.
Qed.

(** A configuration value outside [range(256)] makes [bytearray([...])]
    raise before anything else can. *)
Lemma _buildStringPacket_ValueError :
  ~ Forall in_byte_range config -> build = Raise ValueError.
Proof.
  intros Hn. rewrite <- metadata_in_range_iff in Hn.
  subst build metadata. unfold _buildStringPacket, metadata_ints in *.
  destruct text_color as [[fr fg] fb], text_bg_color as [[br bg] bb].
  destruct (bytearray_of_ints _) as [md | e] eqn:Hmd.
  - apply bytearray_of_ints_Ok in Hmd as [_ HF]. contradiction.
  - apply bytearray_of_ints_Raise in Hmd as [-> _]. reflexivity.
Qed.

(** With the configuration in range the only exception left is the
    [OverflowError] of a length or count field that does not fit. *)
Lemma _buildStringPacket_Raise (e : exn) :
  Forall in_byte_range config -> build = Raise e ->
  e = OverflowError
  /\ (65536 <= count text_bitmaps separator \/ 65536 <= len text_bitmaps + 30).
Proof.
  intros Hc. rewrite <- metadata_in_range_iff in Hc.
  subst build metadata. unfold _buildStringPacket, metadata_ints in *.
  destruct text_color as [[fr fg] fb], text_bg_color as [[br bg] bb].
  destruct (bytearray_of_ints_in_range _ Hc) as (md & -> & Hmd). cbn [bind].
  assert (Hlen : List.length md = 14%nat)
    by (apply (f_equal (@List.length Z)) in Hmd; rewrite length_map in Hmd;
        exact Hmd).
  destruct (to_bytes (count text_bitmaps separator) 2) as [nc | e1] eqn:Hnc.
  2:{ cbn [bind]. intros [= <-]. apply to_bytes_Raise in Hnc as [-> Hnc].
      split; [reflexivity |]. left.
      pose proof (count_nonneg text_bitmaps separator).
      change (256 ^ Z.of_nat 2) with 65536 in Hnc. lia. }
  cbn [bind]. apply to_bytes_Ok in Hnc as (Hl & _ & _).
  apply length_2_inv in Hl as (n0 & n1 & ->).
  rewrite slice_assign_prefix by (unfold len; rewrite Hlen; lia).
  change (bytearray_of_ints [0; 0; 3; 0; 0; 0; 0; 0; 0; 0; 0; 0; 0; 0; 0; 12])
    with (Ok [x00; x00; x03; x00; x00; x00; x00; x00; x00; x00; x00; x00; x00;
              x00; x00; x0c]).
  cbn [bind].
  set (body := ([n0; n1] ++ skipn (Z.to_nat 2) md) ++ text_bitmaps).
  assert (Hbody : len body = len text_bitmaps + 14).
  { subst body. unfold len. rewrite !length_app, length_skipn, Hlen. simpl. lia. }
  destruct (to_bytes _ 2) as [tl | e1] eqn:Htl.
  2:{ cbn [bind]. intros [= <-]. apply to_bytes_Raise in Htl as [-> Htl].
      split; [reflexivity |]. right.
      change (256 ^ Z.of_nat 2) with 65536 in Htl. rewrite Hbody in Htl.
      unfold len in *. simpl in Htl. lia. }
  cbn [bind]. apply to_bytes_Ok in Htl as (_ & _ & Htl).
  change (256 ^ Z.of_nat 2) with 65536 in Htl. rewrite Hbody in Htl.
  destruct (to_bytes_fits (len body) 4) as (pl & ->).
  { rewrite Hbody. change (256 ^ Z.of_nat 4) with 4294967296.
    unfold len in *. simpl in Htl. lia. }
  cbn [bind].
  destruct (to_bytes_fits (Zlib.crc32 body) 4 (crc32_range body)) as (crc & ->).
  cbn [bind]. discriminate.
Qed.

End FramerOutcome.

Section FramerSamples.

Lemma blank_packet_built :
  _buildStringPacket blank_bitmaps 1 95 1 (255, 0, 0) 0 (0, 255, 0) = Ok blank_packet.
Proof. vm_compute. reflexivity. Qed.

Lemma mode200_packet_built :
  _buildStringPacket blank_bitmaps 200 95 1 (255, 0, 0) 0 (0, 255, 0)
  = Ok mode200_packet.
Proof. vm_compute. reflexivity. Qed.

End FramerSamples.

(** C2. In every packet the framer returns, the two bytes at [0:2] hold,
    little-endian, 16 plus the length of the body, the four bytes at [5:9]
    hold the length of the body, which is the 14 bytes of Text Metadata
    followed by the bitmap sequence, and the four bytes at [9:13] hold the
    CRC-32 of that body. *)
Theorem buildStringPacket_header_fields
        (text_bitmaps : bytes) (text_mode speed text_color_mode : Z)
        (text_color : Z * Z * Z) (text_bg_mode : Z) (text_bg_color : Z * Z * Z)
        (packet : bytes) :
  _buildStringPacket text_bitmaps text_mode speed text_color_mode
                     text_color text_bg_mode text_bg_color = Ok packet ->
  let body := slice packet 16 (len packet) in
  let text_metadata := slice packet 16 30 in
  body = text_metadata ++ text_bitmaps
  /\ len text_metadata = 14
  /\ from_bytes (slice packet 0 2) = 16 + len body
  /\ from_bytes (slice packet 5 9) = len text_metadata + len text_bitmaps
  /\ from_bytes (slice packet 9 13) = Zlib.crc32 body.
Proof.
  intros H.
  apply _buildStringPacket_Ok in H
    as (n0 & n1 & rest & t0 & t1 & p0 & p1 & p2 & p3 & c0 & c1 & c2 & c3 & H).
  cbv zeta in H. destruct H as (-> & Hmd & _ & Ht & Hp & Hc).
  assert (Hlen : List.length rest = 12%nat).
  { apply (f_equal (@List.length Z)) in Hmd. unfold metadata_ints in Hmd.
    destruct text_color as [[? ?] ?], text_bg_color as [[? ?] ?].
    simpl in Hmd. rewrite length_map in Hmd. lia. }
  destruct rest as [| r0 [| r1 [| r2 [| r3 [| r4 [| r5 [| r6 [| r7 [| r8 [| r9
    [| r10 [| r11 [| ? ?]]]]]]]]]]]]]; try discriminate Hlen.
  clear Hlen Hmd.
  set (md := [n0; n1; r0; r1; r2; r3; r4; r5; r6; r7; r8; r9; r10; r11]) in *.
  set (hd := [t0; t1; x03; x00; x00; p0; p1; p2; p3; c0; c1; c2; c3; x00; x00; x0c]).
  assert (Hl : len (hd ++ md ++ text_bitmaps) = 30 + len text_bitmaps).
  { unfold len. rewrite !length_app.
    change (List.length hd) with 16%nat. change (List.length md) with 14%nat. lia. }
  assert (Hbody : slice (hd ++ md ++ text_bitmaps) 16 (len (hd ++ md ++ text_bitmaps))
                  = md ++ text_bitmaps).
  { rewrite slice_nonneg by (unfold len in *; lia).
    change (skipn (Z.to_nat 16) (hd ++ md ++ text_bitmaps)) with (md ++ text_bitmaps).
    apply firstn_all2. rewrite Hl. unfold len. rewrite length_app.
    change (List.length md) with 14%nat. lia. }
  assert (Hmeta : slice (hd ++ md ++ text_bitmaps) 16 30 = md).
  { rewrite slice_nonneg by lia. reflexivity. }
  assert (H02 : slice (hd ++ md ++ text_bitmaps) 0 2 = [t0; t1])
    by (rewrite slice_nonneg by lia; reflexivity).
  assert (H59 : slice (hd ++ md ++ text_bitmaps) 5 9 = [p0; p1; p2; p3])
    by (rewrite slice_nonneg by lia; reflexivity).
  assert (H913 : slice (hd ++ md ++ text_bitmaps) 9 13 = [c0; c1; c2; c3])
    by (rewrite slice_nonneg by lia; reflexivity).
  cbv zeta. rewrite Hbody, Hmeta, H02, H59, H913.
  split; [reflexivity |]. split; [reflexivity |]. split; [| split].
  - rewrite Ht. lia.
  - rewrite Hp. unfold len. rewrite length_app. lia.
  - exact Hc.
Qed.

Lemma buildStringPacket_header_fields_blank :
  _buildStringPacket blank_bitmaps 1 95 1 (255, 0, 0) 0 (0, 255, 0) = Ok blank_packet
  /\ from_bytes (slice blank_packet 0 2) = 16 + len (slice blank_packet 16 (len blank_packet))
  /\ from_bytes (slice blank_packet 9 13)
     = Zlib.crc32 (slice blank_packet 16 (len blank_packet)).
Proof.
  split; [exact blank_packet_built |].
  pose proof (buildStringPacket_header_fields
                blank_bitmaps 1 95 1 (255, 0, 0) 0 (0, 255, 0) blank_packet
                blank_packet_built) as H.
  cbv zeta in H. destruct H as (_ & _ & H1 & _ & H2).
  split; [exact H1 | exact H2].
Defined.

(** C10. The framer checks no configuration value against the option
    lists. When the ten values (display mode, speed, the two colour modes
    and the six colour components) are all in 0..255, [bytearray([...])]
    accepts the metadata, no [ValueError] can come out of the framer, and
    every packet returned carries the ten values unchanged at [20:30];
    when one of them is outside 0..255 the framer raises [ValueError]. *)
Theorem buildStringPacket_config_verbatim
        (text_bitmaps : bytes) (text_mode speed text_color_mode : Z)
        (text_color : Z * Z * Z) (text_bg_mode : Z) (text_bg_color : Z * Z * Z) :
  let build := _buildStringPacket text_bitmaps text_mode speed text_color_mode
                                  text_color text_bg_mode text_bg_color in
  let config := config_ints text_mode speed text_color_mode
                            text_color text_bg_mode text_bg_color in
  let metadata := metadata_ints text_mode speed text_color_mode
                                text_color text_bg_mode text_bg_color in
  (Forall in_byte_range config ->
     (exists md, bytearray_of_ints metadata = Ok md /\ map int_of_byte md = metadata)
     /\ build <> Raise ValueError
     /\ (forall packet, build = Ok packet ->
           map int_of_byte (slice packet 20 30) = config))
  /\ (~ Forall in_byte_range config -> build = Raise ValueError).
Proof.
  cbv zeta. split; [| apply _buildStringPacket_ValueError].
  intros Hc. split; [| split].
  - apply bytearray_of_ints_in_range. apply metadata_in_range_iff, Hc.
  - intros Hr. apply _buildStringPacket_Raise in Hr as [Hr _]; [discriminate | exact Hc].
  - intros packet H.
    apply _buildStringPacket_Ok in H
      as (n0 & n1 & rest & t0 & t1 & p0 & p1 & p2 & p3 & c0 & c1 & c2 & c3 & H).
    cbv zeta in H. destruct H as (-> & Hmd & _).
    unfold config_ints. rewrite <- Hmd.
    assert (Hlen : List.length rest = 12%nat).
    { apply (f_equal (@List.length Z)) in Hmd. unfold metadata_ints in Hmd.
      destruct text_color as [[? ?] ?], text_bg_color as [[? ?] ?].
      simpl in Hmd. rewrite length_map in Hmd. lia. }
    destruct rest as [| r0 [| r1 [| r2 [| r3 [| r4 [| r5 [| r6 [| r7 [| r8 [| r9
      [| r10 [| r11 [| ? ?]]]]]]]]]]]]]; try discriminate Hlen.
    rewrite slice_nonneg by lia. reflexivity.
Qed.

Lemma buildStringPacket_config_verbatim_mode200 :
  Forall in_byte_range (config_ints 200 95 1 (255, 0, 0) 0 (0, 255, 0))
  /\ _buildStringPacket blank_bitmaps 200 95 1 (255, 0, 0) 0 (0, 255, 0)
     = Ok mode200_packet
  /\ map int_of_byte (slice mode200_packet 20 30)
     = [200; 95; 1; 255; 0; 0; 0; 0; 255; 0]
  /\ _buildStringPacket blank_bitmaps 1 95 1 (256, 0, 0) 0 (0, 255, 0)
     = Raise ValueError.
Proof.
  assert (Hc : Forall in_byte_range (config_ints 200 95 1 (255, 0, 0) 0 (0, 255, 0)))
    by (repeat constructor; unfold in_byte_range; lia).
  split; [exact Hc |]. split; [exact mode200_packet_built |]. split.
  - pose proof (buildStringPacket_config_verbatim
                  blank_bitmaps 200 95 1 (255, 0, 0) 0 (0, 255, 0)) as H.
    cbv zeta in H. destruct H as [H _].
    destruct (H Hc) as (_ & _ & Hv). exact (Hv _ mode200_packet_built).
  - pose proof (buildStringPacket_config_verbatim
                  blank_bitmaps 1 95 1 (256, 0, 0) 0 (0, 255, 0)) as H.
    cbv zeta in H. destruct H as [_ H]. apply H.
    intros HF. unfold config_ints, metadata_ints in HF. cbn [skipn] in HF.
    do 3 (apply Forall_inv_tail in HF). apply Forall_inv in HF.
    unfold in_byte_range in HF. lia.
Defined.

(** ** The bitmap packer *)

Section Packer.

Lemma getpixel_inside (im : PIL.Image) (x y : Z) :
  0 <= x < PIL.width im -> 0 <= y < PIL.height im ->
  PIL.getpixel im x y = Ok (if PIL.px im x y then 255 else 0).
Proof.
  intros Hx Hy. unfold PIL.getpixel, PIL.inside.
  destruct (x <? 0) eqn:Ex; [apply Z.ltb_lt in Ex; lia |].
  destruct (y <? 0) eqn:Ey; [apply Z.ltb_lt in Ey; lia |].
  replace (0 <=? x) with true by (symmetry; apply Z.leb_le; lia).
  replace (x <? PIL.width im) with true by (symmetry; apply Z.ltb_lt; lia).
  replace (0 <=? y) with true by (symmetry; apply Z.leb_le; lia).
  replace (y <? PIL.height im) with true by (symmetry; apply Z.ltb_lt; lia).
  reflexivity.
Qed.

Lemma pack8_unfold (p : Z -> bool) :
  pack8 p =
  Z.lor (Z.lor (Z.lor (Z.lor (Z.lor (Z.lor (Z.lor (Z.lor 0
    (Z.shiftl (Z.b2z (p 0)) 0)) (Z.shiftl (Z.b2z (p 1)) 1))
    (Z.shiftl (Z.b2z (p 2)) 2)) (Z.shiftl (Z.b2z (p 3)) 3))
    (Z.shiftl (Z.b2z (p 4)) 4)) (Z.shiftl (Z.b2z (p 5)) 5))
    (Z.shiftl (Z.b2z (p 6)) 6)) (Z.shiftl (Z.b2z (p 7)) 7).
Proof. reflexivity. Qed.

Lemma pack8_range (p : Z -> bool) : 0 <= pack8 p < 256.
Proof.
  rewrite pack8_unfold.
  destruct (p 0), (p 1), (p 2), (p 3), (p 4), (p 5), (p 6), (p 7);
    cbv; split; congruence.
Qed.

(** Bit [k] of the packed byte is pixel [k]: least significant bit first. *)
Lemma pack8_testbit (p : Z -> bool) (k : Z) :
  0 <= k < 8 -> Z.testbit (pack8 p) k = p k.
Proof.
  intros Hk. rewrite pack8_unfold.
  assert (Hc : k = 0 \/ k = 1 \/ k = 2 \/ k = 3 \/ k = 4 \/ k = 5 \/ k = 6 \/ k = 7)
    by lia.
  destruct Hc as [-> | [-> | [-> | [-> | [-> | [-> | [-> | ->]]]]]]];
    destruct (p 0), (p 1), (p 2), (p 3), (p 4), (p 5), (p 6), (p 7); reflexivity.
Qed.

Lemma int_of_byte_inj (a b : byte) : int_of_byte a = int_of_byte b -> a = b.
Proof.
  unfold int_of_byte. intros H. apply N2Z.inj in H.
  pose proof (Byte.of_to_N a) as Ha. rewrite H, Byte.of_to_N in Ha.
  congruence.
Qed.

Lemma append_in_range (bitmap : bytes) (z : Z) :
  0 <= z < 256 -> append bitmap z = Ok (bitmap ++ [low_byte z]).
Proof.
  intros Hz. unfold append.
  destruct (byte_of_int_in_range z Hz) as (b & -> & Hb). cbn [bind].
  do 3 f_equal. apply int_of_byte_inj.
  rewrite Hb, low_byte_value, Z.mod_small by lia. reflexivity.
Qed.

Variable im : PIL.Image.
Variable y : Z.
Hypothesis Hwidth : 16 <= PIL.width im.
Hypothesis Hy : 0 <= y < PIL.height im.

Lemma pack_pixel_first (x byte : Z) (bitmap : bytes) :
  0 <= x < 16 -> x mod 8 = 0 ->
  pack_pixel im y x (byte, bitmap)
  = Ok (Z.lor 0 (Z.shiftl (Z.b2z (PIL.px im x y)) 0), bitmap).
Proof.
  intros Hx Hm. unfold pack_pixel. rewrite getpixel_inside by lia. cbn [bind].
  rewrite Hm. destruct (PIL.px im x y); reflexivity.
Qed.

Lemma pack_pixel_middle (x byte : Z) (bitmap : bytes) :
  0 <= x < 16 -> 0 < x mod 8 < 7 ->
  pack_pixel im y x (byte, bitmap)
  = Ok (Z.lor byte (Z.shiftl (Z.b2z (PIL.px im x y)) (x mod 8)), bitmap).
Proof.
  intros Hx Hm. unfold pack_pixel. rewrite getpixel_inside by lia. cbn [bind].
  destruct (x mod 8 =? 0) eqn:E0; [apply Z.eqb_eq in E0; lia |].
  destruct (x mod 8 =? 7) eqn:E7; [apply Z.eqb_eq in E7; lia |].
  destruct (PIL.px im x y); reflexivity.
Qed.

Lemma pack_pixel_last (x byte : Z) (bitmap : bytes) :
  0 <= x < 16 -> x mod 8 = 7 ->
  let byte' := Z.lor byte (Z.shiftl (Z.b2z (PIL.px im x y)) 7) in
  0 <= byte' < 256 ->
  pack_pixel im y x (byte, bitmap) = Ok (byte', bitmap ++ [low_byte byte']).
Proof.
  intros Hx Hm byte' Hb. unfold pack_pixel. rewrite getpixel_inside by lia.
  cbn [bind]. rewrite Hm. cbn [Z.eqb Pos.eqb].
  replace (Z.land (if PIL.px im x y then 255 else 0) 1) with (Z.b2z (PIL.px im x y))
    by (destruct (PIL.px im x y); reflexivity).
  fold byte'. rewrite append_in_range by exact Hb. reflexivity.
Qed.

(** One pass of the inner loop appends the two bytes of row [y]. *)
Lemma row_packed (byte : Z) (bitmap : bytes) :
  for_each (range1 16) (pack_pixel im y) (byte, bitmap)
  = Ok (pack8 (fun k => PIL.px im (8 + k) y), bitmap ++ packed_row (PIL.px im) y).
Proof.
  change (range1 16) with [0; 1; 2; 3; 4; 5; 6; 7; 8; 9; 10; 11; 12; 13; 14; 15].
  pose proof (pack8_range (fun k => PIL.px im k y)) as R0.
  pose proof (pack8_range (fun k => PIL.px im (8 + k) y)) as R1.
  rewrite pack8_unfold in R0, R1.
  cbn [for_each]. rewrite pack_pixel_first by (try reflexivity; lia). cbn [bind].
  do 6 (cbn [for_each]; rewrite pack_pixel_middle by (cbn; lia); cbn [bind]).
  cbn [for_each]. rewrite pack_pixel_last by (try reflexivity; try exact R0; lia).
  cbn [bind].
  cbn [for_each]. rewrite pack_pixel_first by (try reflexivity; lia). cbn [bind].
  do 6 (cbn [for_each]; rewrite pack_pixel_middle by (cbn; lia); cbn [bind]).
  cbn [for_each]. rewrite pack_pixel_last by (try reflexivity; try exact R1; lia).
  cbn [bind for_each]. rewrite <- app_assoc. reflexivity.
Qed.

End Packer.

Section Blocks.

Lemma range1_bounds (n y : Z) : In y (range1 n) -> 0 <= y < n.
Proof.
  unfold range1. intros H. apply in_map_iff in H as (k & <- & Hk).
  apply in_seq in Hk. lia.
Qed.

Lemma rows_packed (im : PIL.Image) (ys : list Z) :
  16 <= PIL.width im ->
  (forall y, In y ys -> 0 <= y < PIL.height im) ->
  forall byte bitmap,
  exists byte',
    for_each ys (fun y => for_each (range1 16) (pack_pixel im y)) (byte, bitmap)
    = Ok (byte', bitmap ++ flat_map (packed_row (PIL.px im)) ys).
Proof.
  intros Hw. induction ys as [| y ys IH]; intros Hys byte bitmap.
  - exists byte. cbn [for_each flat_map]. rewrite app_nil_r. reflexivity.
  - cbn [for_each flat_map]. rewrite row_packed by (auto using in_eq). cbn [bind].
    destruct (IH (fun z Hz => Hys z (in_cons _ _ _ Hz))
                 (pack8 (fun k => PIL.px im (8 + k) y))
                 (bitmap ++ packed_row (PIL.px im) y)) as (byte' & E).
    exists byte'. rewrite app_assoc. exact E.
Qed.

(** [_ConstructBitMap] never raises on an image of at least 16x32 pixels,
    and returns the packed rows of its top-left 16x32 corner. *)
Lemma _ConstructBitMap_packed (im : PIL.Image) :
  16 <= PIL.width im -> 32 <= PIL.height im ->
  _ConstructBitMap im = Ok (packed_block (PIL.px im)).
Proof.
  intros Hw Hh. unfold _ConstructBitMap.
  destruct (rows_packed im (range1 32) Hw) with (byte := 0) (bitmap := @nil byte)
    as (byte' & E).
  - intros y Hy. apply range1_bounds in Hy. lia.
  - exact (f_equal (fun r => '(_, bitmap) <- r ;; Ok bitmap) E).
Qed.

Lemma length_packed_block (p : Z -> Z -> bool) : List.length (packed_block p) = 64%nat.
Proof. reflexivity. Qed.

Lemma nth_packed_block (p : Z -> Z -> bool) (j b : nat) :
  (j < 32)%nat -> (b < 2)%nat ->
  nth (2 * j + b) (packed_block p) x00
  = low_byte (pack8 (fun k => p (8 * Z.of_nat b + k) (Z.of_nat j))).
Proof.
  intros Hj Hb.
  do 32 (destruct j as [| j];
         [destruct b as [| [| b]]; [reflexivity | reflexivity | lia] |]).
  lia.
Qed.

Lemma crop_window (strip : PIL.Image) (left_ : Z) :
  PIL.crop strip left_ 0 (left_ + 16) 32
  = Ok (PIL.mkImage (left_ + 16 - left_) 32 (window strip left_)).
Proof.
  unfold PIL.crop.
  replace (left_ + 16 <? left_) with false by (symmetry; apply Z.ltb_ge; lia).
  reflexivity.
Qed.

(** The loop runs once per started 16-pixel window and then stops. *)
Lemma crop_loop_blocks (strip : PIL.Image) (padded_width : Z) (k : nat) :
  forall (i : nat) (results : list bytes),
    padded_width <= 16 * Z.of_nat (i + k) < padded_width + 16 \/
    (k = 0%nat /\ padded_width <= 16 * Z.of_nat i) ->
    crop_loop strip padded_width (16 * Z.of_nat i) results
    = Ok (results ++ map (fun j => packed_block (window strip (16 * Z.of_nat j)))
                         (seq i k)).
Proof.
  induction k as [| k IH]; intros i results Hk; simp crop_loop;
    destruct (Z_lt_dec (16 * Z.of_nat i) padded_width) as [Hlt | Hge];
    cbn [crop_loop_unfold_clause_1 seq map].
  - exfalso. rewrite Nat.add_0_r in Hk. lia.
  - rewrite app_nil_r. reflexivity.
  - rewrite crop_window. cbn [bind].
    rewrite _ConstructBitMap_packed by (cbn [PIL.width PIL.height]; lia).
    cbn [bind PIL.px].
    replace (16 * Z.of_nat i + 16) with (16 * Z.of_nat (S i)) by lia.
    rewrite IH.
    + rewrite <- app_assoc. reflexivity.
    + destruct k as [| k]; [right | left]; split; try reflexivity;
        destruct Hk as [Hk | [Hk _]]; try discriminate; lia.
  - exfalso. destruct Hk as [Hk | [Hk _]]; [lia | discriminate].
Qed.

End Blocks.

(** C4. On a valid Composite Strip (32 pixels high, width a multiple of
    16) the packer loop returns exactly [width / 16] blocks of exactly 64
    bytes each, whatever the pixels are; in block [i], the byte at index
    [2 * y + b] (row [y] from the top, byte position [b] of the row) has
    bit [k] set exactly when the pixel of the strip at column
    [16 * i + (8 * b + k)] of row [y] is on. *)
Theorem bitmap_packer_blocks (strip : PIL.Image) :
  valid_strip strip ->
  exists blocks,
    crop_loop strip (PIL.width strip) 0 [] = Ok blocks
    /\ len blocks = PIL.width strip / 16
    /\ Forall (fun block => len block = 64) blocks
    /\ forall i y b k,
         0 <= i < PIL.width strip / 16 -> 0 <= y < 32 -> 0 <= b < 2 -> 0 <= k < 8 ->
         Z.testbit
           (int_of_byte (nth (Z.to_nat (2 * y + b)) (nth (Z.to_nat i) blocks []) x00)) k
         = PIL.px strip (16 * i + (8 * b + k)) y.
Proof.
  intros (Hh & Hw0 & Hw16).
  set (n := Z.to_nat (PIL.width strip / 16)).
  assert (Hn : PIL.width strip = 16 * Z.of_nat n).
  { subst n. rewrite Z2Nat.id by (apply Z.div_pos; lia).
    pose proof (Z.div_mod (PIL.width strip) 16 ltac:(lia)). lia. }
  pose proof (crop_loop_blocks strip (PIL.width strip) n 0%nat []) as E.
  change (16 * Z.of_nat 0) with 0 in E. cbn [app Nat.add] in E.
  eexists. split; [apply E; left; lia |].
  assert (Hnth : forall i, (i < n)%nat ->
            nth i (map (fun j => packed_block (window strip (16 * Z.of_nat j))) (seq 0 n)) []
            = packed_block (window strip (16 * Z.of_nat i))).
  { intros i Hi.
    rewrite (nth_indep _ [] (packed_block (window strip (16 * Z.of_nat 0%nat))))
      by (rewrite length_map, length_seq; exact Hi).
    rewrite (map_nth (fun j => packed_block (window strip (16 * Z.of_nat j)))).
    rewrite seq_nth by exact Hi. reflexivity. }
  split; [| split].
  - unfold len. rewrite length_map, length_seq. subst n.
    apply Z2Nat.id, Z.div_pos; lia.
  - apply Forall_forall. intros block Hin.
    apply in_map_iff in Hin as (j & <- & _). reflexivity.
  - intros i y b k Hi Hy Hb Hk.
    rewrite Hnth by lia.
    replace (Z.to_nat (2 * y + b)) with (2 * Z.to_nat y + Z.to_nat b)%nat by lia.
    rewrite nth_packed_block by lia.
    rewrite low_byte_value, Z.mod_small by apply pack8_range.
    rewrite pack8_testbit by exact Hk.
    unfold window, PIL.inside. rewrite !Z2Nat.id by lia.
    replace (0 <=? 16 * i + (8 * b + k)) with true by (symmetry; apply Z.leb_le; lia).
    replace (16 * i + (8 * b + k) <? PIL.width strip) with true
      by (symmetry; apply Z.ltb_lt;
          pose proof (Z.div_mod (PIL.width strip) 16 ltac:(lia)); lia).
    replace (0 <=? y) with true by (symmetry; apply Z.leb_le; lia).
    replace (y <? PIL.height strip) with true by (symmetry; apply Z.ltb_lt; lia).
    reflexivity.
Qed.

Lemma bitmap_packer_blocks_checker :
  valid_strip checker_strip
  /\ exists blocks,
       crop_loop checker_strip 32 0 [] = Ok blocks
       /\ len blocks = 2
       /\ Forall (fun block => len block = 64) blocks.
Proof.
  assert (Hv : valid_strip checker_strip) by (repeat split; discriminate).
  split; [exact Hv |].
  destruct (bitmap_packer_blocks checker_strip Hv) as (blocks & H1 & H2 & H3 & _).
  exists blocks. split; [exact H1 | split; [exact H2 | exact H3]].
Defined.

(** ** The glyph rasterizer *)

Section Rasterizer.

Variable font : PIL.Font.
Variable W : Z.

Lemma draw_cell_Ok (c : ascii) (imgs imgs' : list PIL.Image) (tw tw' : Z) :
  draw_cell font W c (imgs, tw) = Ok (imgs', tw') ->
  0 <= W /\ tw' = tw + W /\ exists cell, imgs' = imgs ++ [cell] /\ is_cell_of font W c cell.
Proof.
  unfold draw_cell, PIL.new, PIL.draw_text.
  destruct (W <? 0) eqn:EW; [discriminate |]. apply Z.ltb_ge in EW.
  cbn [orb Z.ltb Z.compare bind].
  destruct (PIL.ink font c) as [g |] eqn:Hg; [| discriminate]. cbn [bind].
  intros [= <- <-]. split; [exact EW |]. split; [reflexivity |].
  eexists. split; [reflexivity |].
  split; [reflexivity |]. split; [reflexivity |].
  exists g. split; [exact Hg |]. intros a b. reflexivity.
Qed.

Lemma draw_cell_succeeds (c : ascii) (imgs : list PIL.Image) (tw : Z) :
  0 <= W -> is_ok (PIL.ink font c) = true ->
  exists cell, draw_cell font W c (imgs, tw) = Ok (imgs ++ [cell], tw + W).
Proof.
  intros HW Hink. unfold draw_cell, PIL.new, PIL.draw_text.
  destruct (W <? 0) eqn:EW; [apply Z.ltb_lt in EW; lia |].
  cbn [orb Z.ltb Z.compare bind].
  destruct (PIL.ink font c) as [g |]; [| discriminate]. cbn [bind].
  eexists. reflexivity.
Qed.

Lemma draw_cells_Ok (chars : list ascii) :
  forall (imgs imgs' : list PIL.Image) (tw tw' : Z),
    for_each chars (draw_cell font W) (imgs, tw) = Ok (imgs', tw') ->
    tw' = tw + len chars * W
    /\ (chars <> [] -> 0 <= W)
    /\ exists cells, imgs' = imgs ++ cells /\ Forall2 (is_cell_of font W) chars cells.
Proof.
  induction chars as [| c chars IH]; intros imgs imgs' tw tw' H; cbn [for_each] in H.
  - injection H as <- <-. split; [unfold len; simpl; lia |].
    split; [congruence |]. exists []. rewrite app_nil_r. split; constructor.
  - destruct (draw_cell font W c (imgs, tw)) as [[imgs1 tw1] |] eqn:E; [| discriminate].
    cbn [bind] in H. apply draw_cell_Ok in E as (HW & -> & cell & -> & Hcell).
    apply IH in H as (-> & _ & cells & -> & Hcells).
    split; [unfold len; cbn [List.length]; lia |]. split; [intros _; exact HW |].
    exists (cell :: cells). rewrite <- app_assoc. split; [reflexivity |].
    constructor; assumption.
Qed.

Lemma draw_cells_succeed (chars : list ascii) :
  0 <= W -> Forall (fun c => is_ok (PIL.ink font c) = true) chars ->
  forall imgs tw, exists imgs' tw',
    for_each chars (draw_cell font W) (imgs, tw) = Ok (imgs', tw').
Proof.
  intros HW. induction 1 as [| c chars Hc _ IH]; intros imgs tw; cbn [for_each].
  - eauto.
  - destruct (draw_cell_succeeds c imgs tw HW Hc) as (cell & ->). cbn [bind].
    apply IH.
Qed.

(** Pasting cells of width [W] side by side from column [x] leaves every
    column outside [x, x + n * W) as it was. *)
Lemma paste_cells_Ok (y0 : Z) (cells : list PIL.Image) :
  0 <= W -> Forall (fun cell => PIL.width cell = W) cells ->
  forall (full : PIL.Image) (x : Z),
  exists full',
    for_each cells (paste_cell W y0) (full, x) = Ok (full', x + len cells * W)
    /\ PIL.width full' = PIL.width full
    /\ PIL.height full' = PIL.height full
    /\ forall a b, a < x \/ x + len cells * W <= a ->
                   PIL.px full' a b = PIL.px full a b.
Proof.
  intros HW. induction 1 as [| cell cells Hcell _ IH]; intros full x.
  - exists full. cbn [for_each]. unfold len. cbn [List.length Z.of_nat].
    rewrite Z.mul_0_l, Z.add_0_r. auto.
  - cbn [for_each paste_cell bind].
    destruct (IH (PIL.paste full cell x y0) (x + W)) as (full' & E & Hw & Hh & Hpx).
    exists full'.
    replace (x + len (cell :: cells) * W) with (x + W + len cells * W)
      by (unfold len; cbn [List.length]; lia).
    split; [exact E |]. split; [exact Hw |]. split; [exact Hh |].
    assert (Hn : 0 <= len cells) by (unfold len; lia).
    intros a b Hab. rewrite Hpx by nia.
    cbn [PIL.paste PIL.px]. unfold PIL.inside. rewrite Hcell.
    destruct (0 <=? a - x) eqn:E1; [| reflexivity].
    destruct (a - x <? W) eqn:E2; [| reflexivity].
    apply Z.leb_le in E1. apply Z.ltb_lt in E2. nia.
Qed.

End Rasterizer.

Section Strip.

Lemma length_list_ascii (s : string) :
  List.length (list_ascii_of_string s) = String.length s.
Proof. induction s as [| c s IH]; simpl; congruence. Qed.

Lemma pad_to_16 (t : Z) : t + (- t) mod 16 = (t + 15) / 16 * 16.
Proof.
  pose proof (Z.div_mod (- t) 16 ltac:(lia)).
  pose proof (Z.mod_pos_bound (- t) 16 ltac:(lia)).
  pose proof (Z.div_mod (t + 15) 16 ltac:(lia)).
  pose proof (Z.mod_pos_bound (t + 15) 16 ltac:(lia)).
  lia.
Qed.

Variable truetype : string -> Z -> result PIL.Font.

(** Every composite image the rasterizer returns: the text is not empty,
    the font was loaded, the cells are [cell_width] wide, and the image is
    the row of cells padded with off pixels to the next multiple of 16. *)
Lemma composite_strip_Ok (text : string) (font_path : option string)
      (font_size : option Z) (full_image : PIL.Image) (padded_width : Z) :
  composite_strip truetype text font_path font_size = Ok (full_image, padded_width) ->
  exists font p s,
    truetype p s = Ok font
    /\ text <> ""%string
    /\ 0 <= cell_width font
    /\ padded_width = (Z.of_nat (String.length text) * cell_width font + 15) / 16 * 16
    /\ PIL.width full_image = padded_width
    /\ PIL.height full_image = 32
    /\ forall a b, Z.of_nat (String.length text) * cell_width font <= a ->
                   PIL.px full_image a b = false.
Proof.
  unfold composite_strip.
  set (p := match font_path with
            | Some p => if (p =? "")%string then default_font_path else p
            | None => default_font_path
            end).
  set (s := match font_size with
            | Some s => if s =? 0 then 20 else s
            | None => 20
            end).
  destruct (truetype p s) as [font |] eqn:Hfont; [| discriminate]. cbn [bind].
  destruct (PIL.getbbox font "6") as [[[b0 b1] b2] b3] eqn:Hbbox.
  destruct (PIL.getmetrics font) as [ascent descent].
  assert (HcW : cell_width font = b2 - b0) by (unfold cell_width; rewrite Hbbox; reflexivity).
  set (W := b2 - b0) in *.
  destruct (for_each _ (draw_cell font W) _) as [[imgs tw] |] eqn:Hcells;
    [| discriminate].
  cbn [bind]. apply draw_cells_Ok in Hcells as (-> & HW & cells & -> & Hcells).
  cbn [app]. unfold len. rewrite length_list_ascii, Z.add_0_l.
  remember (list_ascii_of_string text) as chars0 eqn:Hchars.
  destruct Hcells as [| c cell chars cells Hcell Hcells].
  { change (getitem (@nil PIL.Image) 0) with (@Raise PIL.Image IndexError).
    cbn [bind]. discriminate. }
  assert (Htext : text <> ""%string).
  { intros ->. discriminate. }
  specialize (HW ltac:(discriminate)).
  change (getitem (cell :: cells) 0) with (Ok cell). cbn [bind].
  destruct Hcell as (Hcw & Hch & _). unfold PIL.size. rewrite Hcw.
  set (total := Z.of_nat (String.length text) * W).
  unfold PIL.new.
  destruct (total + - total mod 16 <? 0) eqn:Epw; [discriminate |].
  cbn [orb Z.ltb Z.compare bind].
  assert (HF : Forall (fun cell => PIL.width cell = W) (cell :: cells)).
  { constructor; [exact Hcw |].
    clear - Hcells. induction Hcells as [| ? ? ? ? (? & _) _ IH]; constructor; auto. }
  destruct (paste_cells_Ok W (16 - (ascent + descent) / 2) (cell :: cells) HW HF
              (PIL.mkImage (total + - total mod 16) 32 (fun _ _ => false)) 0)
    as (full' & E & Hw & Hh & Hpx).
  match goal with
  | |- context [for_each ?l ?f ?s0] =>
      change (for_each l f s0)
        with (for_each (cell :: cells) (paste_cell W (16 - (ascent + descent) / 2))
                       (PIL.mkImage (total + - total mod 16) 32 (fun _ _ => false), 0))
  end.
  rewrite E. cbn [bind]. intros Hret. injection Hret as H1 H2.
  subst full_image padded_width.
  exists font, p, s. rewrite HcW, <- pad_to_16.
  repeat split; try assumption.
  intros a b Ha. rewrite Hpx; [reflexivity |]. right.
  assert (len (cell :: cells) = Z.of_nat (String.length text)) as ->.
  { unfold len. rewrite <- length_list_ascii.
    match goal with H : _ :: _ = list_ascii_of_string text |- _ => rewrite <- H end.
    cbn [List.length]. f_equal. f_equal.
    symmetry. eapply Forall2_length. exact Hcells. }
  subst total. lia.
Qed.

End Strip.

(** C6. With a fixed font, whose cell width is [W], every Composite Strip
    the rasterizer builds comes from a non-empty text and is
    [ceil(len(text) * W / 16) * 16] pixels wide (written with the floor
    division [(len * W + 15) / 16 * 16]), which is divisible by 16; it is
    32 pixels high and every column from [len(text) * W] on is off. *)
Theorem composite_strip_width (font : PIL.Font) (text : string)
        (font_path : option string) (font_size : option Z)
        (full_image : PIL.Image) (padded_width : Z) :
  composite_strip (fun _ _ => Ok font) text font_path font_size
  = Ok (full_image, padded_width) ->
  let W := cell_width font in
  let n := Z.of_nat (String.length text) in
  text <> ""%string
  /\ PIL.width full_image = (n * W + 15) / 16 * 16
  /\ padded_width = PIL.width full_image
  /\ PIL.width full_image mod 16 = 0
  /\ PIL.height full_image = 32
  /\ forall x y, n * W <= x -> PIL.px full_image x y = false.
Proof.
  intros H. apply composite_strip_Ok in H
    as (font' & p & s & [= <-] & Htext & HW & Hpw & Hw & Hh & Hpx).
  cbv zeta. rewrite Hw.
  split; [exact Htext |]. split; [exact Hpw |]. split; [reflexivity |].
  split; [rewrite Hpw; apply Z.mod_mul; lia |].
  split; [exact Hh | exact Hpx].
Qed.

Lemma composite_strip_width_stripe_A :
  exists full_image,
    composite_strip (fun _ _ => Ok stripe_font) "A" None None = Ok (full_image, 16)
    /\ PIL.width full_image = 16
    /\ PIL.width full_image mod 16 = 0.
Proof.
  eexists. split; [reflexivity |].
  match goal with
  | |- PIL.width ?im = _ /\ _ =>
      pose proof (composite_strip_width stripe_font "A" None None im 16 eq_refl) as H
  end.
  cbv zeta in H. destruct H as (_ & Hw & _ & Hm & _).
  split; [exact Hw | exact Hm].
Defined.

(** ** The separator count against the number of blocks *)

(** C1 (the code departs from the claim). A font whose glyph starts with
    the pixel rows [1010 0000 1111 1111] and [1111 1111 1111 1111] packs
    into a block that begins with the bytes of the separator. For the text
    ["A"] the stream holds one Bitmap Block, yet [count] finds two
    separators and the glyph-count field of the packet says 2. *)
Theorem glyph_count_field_overcounts :
  exists full_image blocks text_bitmaps packet,
    composite_strip (fun _ _ => Ok seam_font) "A" None None = Ok (full_image, 16)
    /\ crop_loop full_image 16 0 [] = Ok blocks
    /\ len blocks = 1
    /\ _StringToBitmaps (fun _ _ => Ok seam_font) "A" None None = Ok text_bitmaps
    /\ count text_bitmaps separator = 2
    /\ _buildStringPacket text_bitmaps 1 95 1 (255, 0, 0) 0 (0, 255, 0) = Ok packet
    /\ from_bytes (slice packet 16 18) = 2.
Proof.
  eexists. eexists. eexists. eexists.
  split; [reflexivity |].
  split; [vm_compute; reflexivity |].
  split; [reflexivity |].
  split; [vm_compute; reflexivity |].
  split; [vm_compute; reflexivity |].
  split; [vm_compute; reflexivity |].
  vm_compute. reflexivity.
Qed.

(** C5 (the code departs from the claim, by the same over-count as C1).
    For the same input the body-length field is 82, that is 14 + 68 for
    the one block, while 14 + 68 times the stored glyph count is 150. *)
Theorem body_length_against_glyph_count :
  exists text_bitmaps packet,
    _StringToBitmaps (fun _ _ => Ok seam_font) "A" None None = Ok text_bitmaps
    /\ _buildStringPacket text_bitmaps 1 95 1 (255, 0, 0) 0 (0, 255, 0) = Ok packet
    /\ from_bytes (slice packet 5 9) = 82
    /\ 14 + 68 * from_bytes (slice packet 16 18) = 150.
Proof.
  eexists. eexists.
  split; [vm_compute; reflexivity |].
  split; [vm_compute; reflexivity |].
  split; vm_compute; reflexivity.
Qed.

(** ** The bitmap stream *)

Section Stream.

Lemma bytestream_of_concat (results : list bytes) :
  bytestream_of results = List.concat (map (fun bitmap => separator ++ bitmap) results).
Proof.
  unfold bytestream_of.
  assert (H : forall acc,
             fold_left (fun bytestream bitmap => bytestream ++ [x05; xff; xff; xff] ++ bitmap)
                       results acc
             = acc ++ List.concat (map (fun bitmap => separator ++ bitmap) results)).
  { induction results as [| r results IH]; intros acc; cbn [fold_left map List.concat].
    - rewrite app_nil_r. reflexivity.
    - rewrite IH, <- !app_assoc. reflexivity. }
  apply H.
Qed.

(** The packer loop never raises: it returns one packed window per started
    16 columns of [padded_width]. *)
Lemma crop_loop_total (strip : PIL.Image) (padded_width : Z) :
  let n := Z.to_nat ((padded_width + 15) / 16) in
  crop_loop strip padded_width 0 []
  = Ok (map (fun j => packed_block (window strip (16 * Z.of_nat j))) (seq 0 n)).
Proof.
  cbv zeta.
  pose proof (crop_loop_blocks strip padded_width
                (Z.to_nat ((padded_width + 15) / 16)) 0%nat []) as E.
  change (16 * Z.of_nat 0) with 0 in E. cbn [app Nat.add] in E. apply E.
  pose proof (Z.div_mod (padded_width + 15) 16 ltac:(lia)) as Hdm.
  pose proof (Z.mod_pos_bound (padded_width + 15) 16 ltac:(lia)) as Hmb.
  destruct (Z_le_dec padded_width 0) as [Hle | Hgt].
  - right. split; [| lia].
    assert ((padded_width + 15) / 16 <= 0) by lia. lia.
  - left. rewrite Z2Nat.id by lia. lia.
Qed.

Variable truetype : string -> Z -> result PIL.Font.

(** Every stream [_StringToBitmaps] returns is a sequence of 64-byte
    blocks, each behind a separator. *)
Lemma _StringToBitmaps_Ok (text : string) (font_path : option string)
      (font_size : option Z) (text_bitmaps : bytes) :
  _StringToBitmaps truetype text font_path font_size = Ok text_bitmaps ->
  exists full_image padded_width blocks,
    composite_strip truetype text font_path font_size = Ok (full_image, padded_width)
    /\ crop_loop full_image padded_width 0 [] = Ok blocks
    /\ text_bitmaps = List.concat (map (fun block => separator ++ block) blocks)
    /\ Forall (fun block => len block = 64) blocks
    /\ len blocks = padded_width / 16.
Proof.
  unfold _StringToBitmaps.
  destruct (composite_strip truetype text font_path font_size)
    as [[full_image padded_width] |] eqn:Hstrip; [| discriminate].
  cbn [bind]. rewrite crop_loop_total. cbn [bind]. intros [= <-].
  exists full_image, padded_width. eexists.
  split; [reflexivity |]. split; [apply crop_loop_total |].
  split; [apply bytestream_of_concat |]. split.
  - apply Forall_forall. intros block Hin.
    apply in_map_iff in Hin as (j & <- & _). reflexivity.
  - apply composite_strip_Ok in Hstrip as (font & p & s & _ & _ & HW & -> & _).
    unfold len. rewrite length_map, length_seq.
    set (t := Z.of_nat (String.length text) * cell_width font).
    assert (Hq : 0 <= (t + 15) / 16) by (apply Z.div_pos; subst t; lia).
    rewrite Z.div_mul by lia.
    rewrite <- (Z.div_unique_pos ((t + 15) / 16 * 16 + 15) 16 ((t + 15) / 16) 15)
      by lia.
    lia.
Qed.

End Stream.

(** ** The separator count of a well-formed stream *)

Section SeparatorCount.

Lemma starts_with_nil (l : bytes) : starts_with l [] = true.
Proof. destruct l; reflexivity. Qed.

(** A match of the separator cannot begin in a block and end in the
    separator that follows it. *)
Lemma no_straddling_match (l rest : bytes) :
  l <> [] -> stream_tail rest ->
  starts_with (l ++ rest) separator = true -> starts_with l separator = true.
Proof.
  intros Hl Hrest H. unfold separator in *.
  destruct l as [| a [| b [| c [| d l']]]];
    [contradiction | | | |
     cbn [app starts_with] in *; rewrite starts_with_nil in *; exact H];
    destruct Hrest as [-> | (r & ->)]; cbn [app starts_with] in H;
    repeat (apply andb_true_iff in H as [? H]);
    try discriminate H.
  all: exfalso;
    match goal with
    | Hx : Byte.eqb x05 xff = true |- _ => vm_compute in Hx; discriminate Hx
    end.
Qed.

Lemma starts_with_length (l sub : bytes) :
  starts_with l sub = true -> (List.length sub <= List.length l)%nat.
Proof.
  revert l. induction sub as [| s sub IH]; intros [| b l] H; cbn in *;
    try lia; try discriminate.
  apply andb_true_iff in H as [_ H]. apply IH in H. lia.
Qed.

(** Passing a block never loses a later separator: the scan reaches the
    end of the block with nothing left to skip. *)
Lemma count_scan_block_le (block : bytes) :
  forall (skip : nat) (rest : bytes),
    (skip <= List.length block)%nat -> stream_tail rest ->
    count_scan separator 0 rest <= count_scan separator skip (block ++ rest).
Proof.
  induction block as [| b block IH]; intros skip rest Hs Hrest.
  - assert (skip = 0%nat) as -> by (cbn in Hs; lia). cbn [app]. lia.
  - cbn [app count_scan]. destruct skip as [| k].
    + destruct (starts_with (b :: block ++ rest) separator) eqn:E.
      * apply (no_straddling_match (b :: block) rest ltac:(discriminate) Hrest) in E.
        apply starts_with_length in E. cbn [List.length separator] in *.
        change (4 - 1)%nat with 3%nat.
        specialize (IH 3%nat rest ltac:(lia) Hrest). lia.
      * apply IH; [lia | exact Hrest].
    + apply IH; [cbn in Hs; lia | exact Hrest].
Qed.

Lemma separator_free_tail (b : byte) (block : bytes) :
  separator_free (b :: block) -> separator_free block.
Proof. intros H k. exact (H (S k)). Qed.

Lemma count_scan_block_free (block : bytes) :
  forall rest, separator_free block -> stream_tail rest ->
    count_scan separator 0 (block ++ rest) = count_scan separator 0 rest.
Proof.
  induction block as [| b block IH]; intros rest Hfree Hrest; [reflexivity |].
  cbn [app count_scan].
  destruct (starts_with (b :: block ++ rest) separator) eqn:E.
  - apply (no_straddling_match (b :: block) rest ltac:(discriminate) Hrest) in E.
    pose proof (Hfree 0%nat) as H0. cbn [skipn] in H0. congruence.
  - apply IH; [eapply separator_free_tail; exact Hfree | exact Hrest].
Qed.

Lemma stream_is_tail (blocks : list bytes) :
  stream_tail (List.concat (map (fun block => separator ++ block) blocks)).
Proof.
  destruct blocks as [| b blocks]; [left; reflexivity |].
  right. cbn [map List.concat separator app]. eauto.
Qed.

Lemma count_scan_separator (l : bytes) :
  count_scan separator 0 (separator ++ l) = 1 + count_scan separator 0 l.
Proof.
  unfold separator. cbn [app count_scan].
  replace (starts_with (x05 :: xff :: xff :: xff :: l) [x05; xff; xff; xff]) with true
    by (cbn [starts_with]; rewrite starts_with_nil; reflexivity).
  reflexivity.
Qed.

End SeparatorCount.

Lemma separator_count_of_stream_lemma (blocks : list bytes) :
  len blocks <= count (List.concat (map (fun block => separator ++ block) blocks))
                      separator
  /\ (Forall separator_free blocks ->
      count (List.concat (map (fun block => separator ++ block) blocks)) separator
      = len blocks).
Proof.
  unfold count. cbn [separator].
  change [x05; xff; xff; xff] with separator.
  induction blocks as [| b blocks [IHle IHeq]].
  - split; [cbn; lia | reflexivity].
  - cbn [map List.concat]. rewrite <- app_assoc, count_scan_separator.
    unfold len in *. cbn [List.length].
    pose proof (stream_is_tail blocks) as Htail.
    split.
    + pose proof (count_scan_block_le b 0%nat _ ltac:(lia) Htail). lia.
    + intros HF. inversion HF as [| ? ? Hb HF']; subst.
      rewrite count_scan_block_free by assumption. rewrite IHeq by exact HF'. lia.
Qed.

(** C7. In every packet produced from a text, the 16 header bytes are
    followed by exactly 14 bytes of Text Metadata: the glyph count in two
    bytes, little-endian, then the bytes 0 and 1, then display mode,
    speed, foreground colour mode, the three foreground components,
    background colour mode and the three background components. After
    them comes the bitmap sequence, which is the stream [_StringToBitmaps]
    built from the blocks the packer loop returned for the composite
    strip: block [i] is the packed window at column [16 * i], there are
    [padded_width / 16] of them, every one has 64 bytes and stands behind
    the separator [05 FF FF FF]. The glyph count stored is the number of
    separators counted in that sequence; it is never below the number of
    blocks and is the number of blocks when no block contains the bytes
    of the separator. *)
Theorem packet_metadata_and_bitmap_layout
        (truetype : string -> Z -> result PIL.Font)
        (text : string) (font_size : Z) (font_path : option string)
        (text_mode speed text_color_mode : Z) (text_color : Z * Z * Z)
        (text_bg_mode : Z) (text_bg_color : Z * Z * Z) (packet : bytes) :
  setMode_data truetype text font_size font_path text_mode speed text_color_mode
               text_color text_bg_mode text_bg_color = Ok packet ->
  exists full_image padded_width blocks header text_metadata,
    composite_strip truetype text font_path (Some font_size)
    = Ok (full_image, padded_width)
    /\ crop_loop full_image padded_width 0 [] = Ok blocks
    /\ len blocks = padded_width / 16
    /\ (forall i, 0 <= i < len blocks ->
          nth (Z.to_nat i) blocks [] = packed_block (window full_image (16 * i)))
    /\ Forall (fun block => len block = 64) blocks
    /\ _StringToBitmaps truetype text font_path (Some font_size)
       = Ok (bytestream_of blocks)
    /\ bytestream_of blocks
       = List.concat (map (fun block => separator ++ block) blocks)
    /\ separator = [x05; xff; xff; xff]
    /\ packet = header ++ text_metadata ++ bytestream_of blocks
    /\ len header = 16
    /\ len text_metadata = 14
    /\ from_bytes (slice text_metadata 0 2) = count (bytestream_of blocks) separator
    /\ len blocks <= from_bytes (slice text_metadata 0 2)
    /\ (Forall separator_free blocks ->
          from_bytes (slice text_metadata 0 2) = len blocks)
    /\ map int_of_byte (slice text_metadata 2 14)
       = 0 :: 1 :: config_ints text_mode speed text_color_mode
                               text_color text_bg_mode text_bg_color.
Proof.
  unfold setMode_data.
  destruct text_color as [[fr fg] fb], text_bg_color as [[br bg] bb].
  destruct (_StringToBitmaps truetype text font_path (Some font_size))
    as [text_bitmaps |] eqn:Hbm; [| discriminate].
  cbn [bind]. intros H.
  pose proof Hbm as Hstream.
  apply _StringToBitmaps_Ok in Hstream
    as (full_image & padded_width & blocks & Hstrip & Hloop & Hcat & Hblocks & Hn).
  rewrite <- bytestream_of_concat in Hcat. subst text_bitmaps.
  apply _buildStringPacket_Ok in H
    as (n0 & n1 & rest & t0 & t1 & p0 & p1 & p2 & p3 & c0 & c1 & c2 & c3 & H).
  cbv zeta in H. destruct H as (-> & Hmd & Hcount & _).
  assert (Hlen : List.length rest = 12%nat).
  { apply (f_equal (@List.length Z)) in Hmd.
    simpl in Hmd. rewrite length_map in Hmd. lia. }
  destruct rest as [| r0 [| r1 [| r2 [| r3 [| r4 [| r5 [| r6 [| r7 [| r8 [| r9
    [| r10 [| r11 [| ? ?]]]]]]]]]]]]]; try discriminate Hlen.
  exists full_image, padded_width, blocks,
         [t0; t1; x03; x00; x00; p0; p1; p2; p3; c0; c1; c2; c3; x00; x00; x0c],
         [n0; n1; r0; r1; r2; r3; r4; r5; r6; r7; r8; r9; r10; r11].
  split; [exact Hstrip |]. split; [exact Hloop |]. split; [exact Hn |].
  split.
  { intros i Hi. rewrite crop_loop_total in Hloop. injection Hloop as <-.
    unfold len in Hi. rewrite length_map, length_seq in Hi.
    rewrite (nth_indep _ [] (packed_block (window full_image (16 * Z.of_nat 0%nat))))
      by (rewrite length_map, length_seq; lia).
    rewrite (map_nth (fun j => packed_block (window full_image (16 * Z.of_nat j)))).
    rewrite seq_nth by lia. rewrite Nat.add_0_l, Z2Nat.id by lia. reflexivity. }
  split; [exact Hblocks |]. split; [reflexivity |].
  split; [apply bytestream_of_concat |]. split; [reflexivity |].
  split; [reflexivity |]. split; [reflexivity |]. split; [reflexivity |].
  rewrite !slice_nonneg by lia.
  change (firstn (Z.to_nat (2 - 0))
            (skipn (Z.to_nat 0) [n0; n1; r0; r1; r2; r3; r4; r5; r6; r7; r8; r9; r10; r11]))
    with [n0; n1].
  pose proof (separator_count_of_stream_lemma blocks) as (Hle & Heq).
  rewrite <- bytestream_of_concat in Hle, Heq. rewrite <- Hcount in Hle, Heq.
  split; [exact Hcount |]. split; [exact Hle |]. split; [exact Heq |].
  apply (f_equal (skipn 2)) in Hmd. exact Hmd.
Qed.

Lemma packet_layout_stripe_A :
  exists packet full_image blocks,
    setMode_data (fun _ _ => Ok stripe_font) "A" 16 None 1 95 1 (255, 0, 0) 0 (0, 255, 0)
    = Ok packet
    /\ composite_strip (fun _ _ => Ok stripe_font) "A" None (Some 16)
       = Ok (full_image, 16)
    /\ crop_loop full_image 16 0 [] = Ok blocks
    /\ len blocks = 1
    /\ len packet = 98
    /\ slice packet 30 34 = [x05; xff; xff; xff]
    /\ from_bytes (slice packet 16 18) = 1.
Proof.
  assert (H : { packet | setMode_data (fun _ _ => Ok stripe_font) "A" 16 None
                                      1 95 1 (255, 0, 0) 0 (0, 255, 0) = Ok packet })
    by (eexists; vm_compute; reflexivity).
  destruct H as [packet H]. exists packet.
  destruct (packet_metadata_and_bitmap_layout _ _ _ _ _ _ _ _ _ _ packet H)
    as (full_image & padded_width & blocks & header & md
        & Hstrip & Hloop & Hn & _ & Hb & _ & Hcat & _ & -> & Hh & Hmd & Hcount & _).
  evar (im : PIL.Image).
  assert (E : composite_strip (fun _ _ => Ok stripe_font) "A" None (Some 16)
              = Ok (im, 16)) by (subst im; reflexivity).
  rewrite E in Hstrip. injection Hstrip as Him Hpw. subst full_image padded_width.
  change (16 / 16) with 1 in Hn.
  exists im, blocks.
  split; [exact H |]. split; [exact E |]. split; [exact Hloop |].
  split; [exact Hn |].
  assert (Hn' : List.length blocks = 1%nat) by (unfold len in Hn; lia).
  destruct blocks as [| block [| ? ?]]; try discriminate Hn'.
  evar (block0 : bytes).
  assert (Eb : crop_loop im 16 0 [] = Ok [block0])
    by (subst block0; vm_compute; reflexivity).
  rewrite Eb in Hloop. injection Hloop as <-.
  rewrite Hcat in *. cbn [map List.concat] in *. rewrite app_nil_r in *.
  assert (Hh' : List.length header = 16%nat) by (unfold len in Hh; lia).
  assert (Hmd' : List.length md = 14%nat) by (unfold len in Hmd; lia).
  destruct header as [| h0 [| h1 [| h2 [| h3 [| h4 [| h5 [| h6 [| h7 [| h8 [| h9
    [| h10 [| h11 [| h12 [| h13 [| h14 [| h15 [| ? ?]]]]]]]]]]]]]]]]];
    try discriminate Hh'.
  destruct md as [| m0 [| m1 [| m2 [| m3 [| m4 [| m5 [| m6 [| m7 [| m8 [| m9
    [| m10 [| m11 [| m12 [| m13 [| ? ?]]]]]]]]]]]]]]]; try discriminate Hmd'.
  split; [reflexivity |].
  rewrite !slice_nonneg by lia. split; [reflexivity |].
  rewrite !slice_nonneg in Hcount by lia.
  change (from_bytes [m0; m1] = count (separator ++ block0) separator) in Hcount.
  change (from_bytes [m0; m1] = 1).
  rewrite Hcount. vm_compute. reflexivity.
Defined.

(** ** The public entry point *)

Section SetMode.

Context {World : Type}.
Variable truetype : string -> Z -> result PIL.Font.

Lemma _StringToBitmaps_empty (font_path : option string) (font_size : option Z) :
  exists e,
    _StringToBitmaps truetype "" font_path font_size = Raise e
    /\ forall font, (forall p s, truetype p s = Ok font) -> e = IndexError.
Proof.
  unfold _StringToBitmaps, composite_strip.
  match goal with
  | |- context [truetype ?p ?s] => destruct (truetype p s) as [font | e] eqn:Hfont
  end.
  - exists IndexError. split; [| reflexivity]. cbn [bind].
    destruct (PIL.getbbox font "6") as [[[b0 b1] b2] b3].
    destruct (PIL.getmetrics font) as [ascent descent].
    reflexivity.
  - exists e. split; [reflexivity |]. intros font Hall.
    rewrite Hall in Hfont. discriminate.
Qed.

Lemma io_bind_send_Ok {A : Type} (cm : ConnectionManager World) (chunk : bytes)
      (k : unit -> io World A) (w w1 : World) (tr : list event) :
  send cm chunk w = Ok w1 ->
  io_bind World (io_send World cm chunk) k (w, tr) = k tt (w1, tr ++ [Sent chunk]).
Proof. intros H. unfold io_bind, io_send. rewrite H. reflexivity. Qed.

Lemma io_bind_send_Raise {A : Type} (cm : ConnectionManager World) (chunk : bytes)
      (k : unit -> io World A) (w : World) (tr : list event) (e : exn) :
  send cm chunk w = Raise e ->
  io_bind World (io_send World cm chunk) k (w, tr) = (Raise e, (w, tr)).
Proof. intros H. unfold io_bind, io_send. rewrite H. reflexivity. Qed.

(** The transcript of sending the chunks: either all of them are
    accepted, or the first refusal ends the loop with its exception. *)
Lemma io_for_send (cm : ConnectionManager World) (chunks : list bytes) :
  forall (w : World) (tr : list event),
    (exists w', sends cm chunks w w'
                /\ io_for World chunks (io_send World cm) (w, tr)
                   = (Ok tt, (w', tr ++ map Sent chunks)))
    \/ (exists e done chunk rest w',
          chunks = done ++ chunk :: rest
          /\ sends cm done w w'
          /\ send cm chunk w' = Raise e
          /\ io_for World chunks (io_send World cm) (w, tr)
             = (Raise e, (w', tr ++ map Sent done))).
Proof.
  induction chunks as [| chunk chunks IH]; intros w tr.
  - left. exists w. split; [constructor |]. cbn. rewrite app_nil_r. reflexivity.
  - destruct (send cm chunk w) as [w1 | e] eqn:Hsend.
    + destruct (IH w1 (tr ++ [Sent chunk]))
        as [(w' & Hs & E) | (e & done & c & rest & w' & -> & Hs & He & E)].
      * left. exists w'. split; [econstructor; eassumption |].
        cbn [io_for]. rewrite (io_bind_send_Ok _ _ _ _ _ _ Hsend), E, <- app_assoc.
        reflexivity.
      * right. exists e, (chunk :: done), c, rest, w'.
        split; [reflexivity |]. split; [econstructor; eassumption |].
        split; [exact He |].
        cbn [io_for]. rewrite (io_bind_send_Ok _ _ _ _ _ _ Hsend), E, <- app_assoc.
        reflexivity.
    + right. exists e, [], chunk, chunks, w.
      split; [reflexivity |]. split; [constructor |]. split; [exact Hsend |].
      cbn [io_for]. rewrite (io_bind_send_Raise _ _ _ _ _ _ Hsend).
      cbn [map]. rewrite app_nil_r. reflexivity.
Qed.

Variable cm : ConnectionManager World.
Variables (text : string) (font_size : Z) (font_path : option string)
          (text_mode speed text_color_mode : Z) (text_color : Z * Z * Z)
          (text_bg_mode : Z) (text_bg_color : Z * Z * Z).

Let data_of : result bytes :=
  setMode_data truetype text font_size font_path text_mode speed text_color_mode
               text_color text_bg_mode text_bg_color.
Let run : World * list event -> result retval * (World * list event) :=
  setMode truetype (__init__ cm) text font_size font_path text_mode speed
          text_color_mode text_color text_bg_mode text_bg_color.

(** [setMode] on a freshly constructed object, stage by stage. *)
Lemma setMode_stages (w : World) (tr : list event) :
  run (w, tr) =
  match data_of with
  | Raise e => (Ok RetFalse, (w, tr ++ [Logged e]))
  | Ok data =>
      match connect cm w with
      | Raise e => (Ok RetFalse, (w, tr ++ [Logged e]))
      | Ok w1 =>
          match _splitIntoChunks data 512 with
          | Raise e => (Ok RetFalse, (w1, (tr ++ [Connected]) ++ [Logged e]))
          | Ok chunks =>
              match io_for World chunks (io_send World cm) (w1, tr ++ [Connected]) with
              | (Ok _, s') => (Ok (RetData data), s')
              | (Raise e, (w', tr')) => (Ok RetFalse, (w', tr' ++ [Logged e]))
              end
          end
      end
  end.
Proof.
  subst run data_of. unfold setMode, try_except, io_bind, lift, io_connect.
  cbn [conn __init__].
  destruct (setMode_data _ _ _ _ _ _ _ _ _ _) as [data | e]; [| reflexivity].
  destruct (connect cm w) as [w1 | e]; [| reflexivity].
  destruct (_splitIntoChunks data 512) as [chunks | e]; [| reflexivity].
  change (fun chunk : bytes => io_send World cm chunk) with (io_send World cm).
  destruct (io_for World chunks (io_send World cm) (w1, tr ++ [Connected]))
    as [[[] | e] [w' tr']]; reflexivity.
Qed.

End SetMode.

(** C8. For the empty text [_StringToBitmaps] raises (an [IndexError] from
    [char_images[0]] once the font is loaded, otherwise the error of the
    font loader), so the argument of [_buildStringPacket] never gets a
    value: whatever the configuration, the error of [setMode_data] is the
    rasterizer's, no packet exists, and [setMode] logs that error, touches
    the link not at all and returns [False]. *)
Theorem empty_text_fails_before_framing
        {World : Type} (truetype : string -> Z -> result PIL.Font)
        (self : Self World) (font_size : Z) (font_path : option string)
        (text_mode speed text_color_mode : Z) (text_color : Z * Z * Z)
        (text_bg_mode : Z) (text_bg_color : Z * Z * Z)
        (w : World) (tr : list event) :
  exists e,
    _StringToBitmaps truetype "" font_path (Some font_size) = Raise e
    /\ (forall font, (forall p s, truetype p s = Ok font) -> e = IndexError)
    /\ setMode_data truetype "" font_size font_path text_mode speed text_color_mode
                    text_color text_bg_mode text_bg_color = Raise e
    /\ setMode truetype self "" font_size font_path text_mode speed text_color_mode
               text_color text_bg_mode text_bg_color (w, tr)
       = (Ok RetFalse, (w, tr ++ [Logged e])).
Proof.
  destruct (_StringToBitmaps_empty truetype font_path (Some font_size))
    as (e & He & Hfont).
  exists e. split; [exact He |]. split; [exact Hfont |].
  assert (Hdata : setMode_data truetype "" font_size font_path text_mode speed
                    text_color_mode text_color text_bg_mode text_bg_color = Raise e)
    by (unfold setMode_data; rewrite He; reflexivity).
  split; [exact Hdata |].
  unfold setMode, try_except, io_bind, lift. rewrite Hdata. reflexivity.
Qed.

(** C9, the claim as stated fails: the value handed back on a failure is
    the bare [False] whatever stage failed, so no reading of the returned
    value tells a rasterizer failure (the empty text) from a transport
    failure (a link that refuses the chunks). *)
Lemma setMode_False_names_no_stage :
  ~ exists describe : result retval -> exn,
      describe (fst (setMode (fun _ _ => Ok stripe_font) (__init__ steady_link)
                             "" 16 None 1 95 1 (255, 0, 0) 0 (0, 255, 0) (0%nat, [])))
      = IndexError
      /\ describe (fst (setMode (fun _ _ => Ok stripe_font) (__init__ broken_link)
                                "A" 16 None 1 95 1 (255, 0, 0) 0 (0, 255, 0) (0%nat, [])))
         = TransportError 1.
Proof.
  intros (describe & H1 & H2).
  assert (E1 : fst (setMode (fun _ _ => Ok stripe_font) (__init__ steady_link)
                            "" 16 None 1 95 1 (255, 0, 0) 0 (0, 255, 0) (0%nat, []))
               = Ok RetFalse) by (vm_compute; reflexivity).
  assert (E2 : fst (setMode (fun _ _ => Ok stripe_font) (__init__ broken_link)
                            "A" 16 None 1 95 1 (255, 0, 0) 0 (0, 255, 0) (0%nat, []))
               = Ok RetFalse) by (vm_compute; reflexivity).
  rewrite E1 in H1. rewrite E2 in H2. congruence.
Qed.

(** C9, amended. One call of [setMode] on a constructed object never
    raises and ends in one of two ways. Either every stage succeeded: the packet was
    built, the link connected, every chunk of the packet was accepted in
    order, nothing was logged, and the complete packet is returned. Or one
    stage raised: the rasterizer, the framer, [connect], or [send] on some
    chunk; then [False] is returned and exactly one error record, holding
    the exception of that stage, is logged after whatever had been
    delivered. *)
Theorem setMode_packet_or_error
        {World : Type} (truetype : string -> Z -> result PIL.Font)
        (cm : ConnectionManager World)
        (text : string) (font_size : Z) (font_path : option string)
        (text_mode speed text_color_mode : Z) (text_color : Z * Z * Z)
        (text_bg_mode : Z) (text_bg_color : Z * Z * Z)
        (w : World) (tr : list event) :
  let bitmaps_of := _StringToBitmaps truetype text font_path (Some font_size) in
  let frame := fun text_bitmaps =>
    _buildStringPacket text_bitmaps text_mode speed text_color_mode
                       text_color text_bg_mode text_bg_color in
  let outcome :=
    setMode truetype (__init__ cm) text font_size font_path text_mode speed
            text_color_mode text_color text_bg_mode text_bg_color (w, tr) in
  (exists text_bitmaps data chunks w1 w',
      bitmaps_of = Ok text_bitmaps /\ frame text_bitmaps = Ok data
      /\ connect cm w = Ok w1
      /\ _splitIntoChunks data 512 = Ok chunks /\ List.concat chunks = data
      /\ sends cm chunks w1 w'
      /\ outcome = (Ok (RetData data), (w', tr ++ Connected :: map Sent chunks)))
  \/ (exists e w' delivered,
      outcome = (Ok RetFalse, (w', tr ++ delivered ++ [Logged e]))
      /\ (   (bitmaps_of = Raise e /\ delivered = [] /\ w' = w)
          \/ (exists text_bitmaps,
                bitmaps_of = Ok text_bitmaps /\ frame text_bitmaps = Raise e
                /\ delivered = [] /\ w' = w)
          \/ (exists text_bitmaps data,
                bitmaps_of = Ok text_bitmaps /\ frame text_bitmaps = Ok data
                /\ connect cm w = Raise e /\ delivered = [] /\ w' = w)
          \/ (exists text_bitmaps data w1 chunks done chunk rest,
                bitmaps_of = Ok text_bitmaps /\ frame text_bitmaps = Ok data
                /\ connect cm w = Ok w1
                /\ _splitIntoChunks data 512 = Ok chunks
                /\ chunks = done ++ chunk :: rest
                /\ sends cm done w1 w' /\ send cm chunk w' = Raise e
                /\ delivered = Connected :: map Sent done))).
Proof.
  cbv zeta. rewrite setMode_stages. unfold setMode_data.
  destruct (_StringToBitmaps truetype text font_path (Some font_size))
    as [text_bitmaps | e] eqn:Hbm; cbn [bind].
  2:{ right. exists e, w, []. split; [reflexivity |]. left. auto. }
  destruct (_buildStringPacket text_bitmaps _ _ _ _ _ _) as [data | e] eqn:Hdata.
  2:{ right. exists e, w, []. split; [reflexivity |]. right. left.
      exists text_bitmaps. auto. }
  destruct (connect cm w) as [w1 | e] eqn:Hconn.
  2:{ right. exists e, w, []. split; [reflexivity |]. right. right. left.
      exists text_bitmaps, data. auto. }
  destruct (_splitIntoChunks_concat data 512 ltac:(lia))
    as (chunks & Hchunks & Hconcat).
  rewrite Hchunks.
  destruct (io_for_send cm chunks w1 (tr ++ [Connected]))
    as [(w' & Hs & E) | (e & done & chunk & rest & w' & Hsplit & Hs & He & E)];
    rewrite E.
  - left. exists text_bitmaps, data, chunks, w1, w'.
    rewrite <- app_assoc. repeat split; auto.
  - right. exists e, w', (Connected :: map Sent done).
    split; [rewrite <- !app_assoc; reflexivity |].
    right. right. right.
    exists text_bitmaps, data, w1, chunks, done, chunk, rest. repeat split; auto.
Qed.

(** * Further properties of the module *)

(** ** [_splitIntoChunks] outside its intended range *)

(** X1. A chunk size of 0 makes [_splitIntoChunks] raise [ValueError]
    (from [range]); a negative chunk size makes it return no chunk at all,
    whatever the data: the data is dropped without an error. *)
Theorem splitIntoChunks_nonpositive_size (data : bytes) (chunk_size : Z) :
  (chunk_size = 0 -> _splitIntoChunks data chunk_size = Raise ValueError)
  /\ (chunk_size < 0 -> _splitIntoChunks data chunk_size = Ok []).
Proof.
  unfold _splitIntoChunks, range. split; intros Hc.
  - subst. reflexivity.
  - destruct (chunk_size =? 0) eqn:E0; [apply Z.eqb_eq in E0; lia |].
    destruct (0 <? chunk_size) eqn:E1; [apply Z.ltb_lt in E1; lia |].
    rewrite Z.sub_0_l.
    assert (Hn : (- len data - chunk_size - 1) / - chunk_size < 1).
    { unfold len. apply Z.div_lt_upper_bound; lia. }
    replace (Z.to_nat ((- len data - chunk_size - 1) / - chunk_size)) with 0%nat by lia.
    reflexivity.
Qed.

(** X2. For a chunk size of at least 1 the number of chunks is the ceiling
    of [len(data) / chunk_size], and the chunk lengths add up to
    [len(data)]. *)
Theorem splitIntoChunks_count_and_total (data : bytes) (chunk_size : Z) :
  1 <= chunk_size ->
  exists chunks,
    _splitIntoChunks data chunk_size = Ok chunks
    /\ len chunks = (len data + chunk_size - 1) / chunk_size
    /\ fold_right Z.add 0 (map len chunks) = len data.
Proof.
  intros Hc. destruct (_splitIntoChunks_concat data chunk_size Hc) as (chunks & H & Hcat).
  exists chunks. split; [exact H |]. split.
  - rewrite _splitIntoChunks_eq in H by exact Hc. injection H as <-.
    unfold len at 1. rewrite length_map, length_seq. unfold chunk_count.
    apply Z2Nat.id, Z.div_pos; unfold len; lia.
  - rewrite <- Hcat. clear. induction chunks as [| c chunks IH]; [reflexivity |].
    cbn [map fold_right List.concat]. unfold len in *. rewrite length_app. lia.
Qed.

Lemma splitIntoChunks_count_600 :
  1 <= 512
  /\ exists chunks, _splitIntoChunks packet_600 512 = Ok chunks /\ len chunks = 2.
Proof.
  split; [lia |].
  destruct (splitIntoChunks_count_and_total packet_600 512) as (chunks & H & Hn & _);
    [lia |].
  exists chunks. split; [exact H | exact Hn].
Defined.

(** ** The framer: when it returns, and the fixed bytes *)

Lemma from_bytes_2_range (a b : byte) : 0 <= from_bytes [a; b] < 65536.
Proof.
  cbn [from_bytes].
  pose proof (int_of_byte_range a). pose proof (int_of_byte_range b). lia.
Qed.

(** X3. [_buildStringPacket] returns a packet exactly when the ten
    configuration values are in 0..255, fewer than 65536 separators are
    counted and the packet (30 bytes more than the bitmaps) is shorter
    than 65536 bytes. A configuration value out of range gives
    [ValueError] whatever the bitmaps are; with the configuration in range
    a count or a length that does not fit its two-byte field gives
    [OverflowError]. *)
Theorem buildStringPacket_outcome
        (text_bitmaps : bytes) (text_mode speed text_color_mode : Z)
        (text_color : Z * Z * Z) (text_bg_mode : Z) (text_bg_color : Z * Z * Z) :
  let build := _buildStringPacket text_bitmaps text_mode speed text_color_mode
                                  text_color text_bg_mode text_bg_color in
  let config_ok := Forall in_byte_range
                     (config_ints text_mode speed text_color_mode
                                  text_color text_bg_mode text_bg_color) in
  let fits := count text_bitmaps separator < 65536 /\ len text_bitmaps + 30 < 65536 in
  ((exists packet, build = Ok packet) <-> config_ok /\ fits)
  /\ (build = Raise ValueError <-> ~ config_ok)
  /\ (build = Raise OverflowError <-> config_ok /\ ~ fits).
Proof.
  cbv zeta.
  set (build := _buildStringPacket _ _ _ _ _ _ _).
  set (config_ok := Forall in_byte_range _).
  set (fits := count text_bitmaps separator < 65536 /\ _).
  assert (Hdec : config_ok \/ ~ config_ok).
  { subst config_ok. unfold config_ints, metadata_ints, in_byte_range.
    destruct text_color as [[fr fg] fb], text_bg_color as [[br bg] bb].
    cbn [skipn].
    destruct (Forall_dec (fun z => 0 <= z < 256)
                (fun z => match Z_le_dec 0 z, Z_lt_dec z 256 with
                          | left a, left b => left (conj a b)
                          | right n, _ => right (fun H => n (proj1 H))
                          | _, right n => right (fun H => n (proj2 H))
                          end)
                [text_mode; speed; text_color_mode; fr; fg; fb; text_bg_mode; br; bg; bb]);
      [left | right]; assumption. }
  assert (Hok : forall packet, build = Ok packet -> config_ok /\ fits).
  { intros packet H. split.
    - destruct Hdec as [Hc | Hn]; [exact Hc |].
      pose proof (_buildStringPacket_ValueError text_bitmaps _ _ _ _ _ _ Hn) as Hv.
      subst build. congruence.
    - apply _buildStringPacket_Ok in H
        as (n0 & n1 & rest & t0 & t1 & p0 & p1 & p2 & p3 & c0 & c1 & c2 & c3 & H).
      cbv zeta in H. destruct H as (_ & Hmd & Hcount & Ht & _).
      assert (Hlen : List.length rest = 12%nat).
      { apply (f_equal (@List.length Z)) in Hmd. unfold metadata_ints in Hmd.
        destruct text_color as [[? ?] ?], text_bg_color as [[? ?] ?].
        simpl in Hmd. rewrite length_map in Hmd. lia. }
      pose proof (from_bytes_2_range n0 n1). pose proof (from_bytes_2_range t0 t1).
      unfold len in Ht. rewrite !length_app in Ht. cbn [List.length] in Ht.
      split; [lia | unfold len; lia]. }
  assert (Hraise : forall e, build = Raise e ->
            (e = ValueError /\ ~ config_ok) \/ (e = OverflowError /\ config_ok /\ ~ fits)).
  { intros e H. destruct Hdec as [Hc | Hn].
    - right. apply _buildStringPacket_Raise in H as [-> Hf]; [| exact Hc].
      split; [reflexivity |]. split; [exact Hc |]. subst fits. lia.
    - left. split; [| exact Hn].
      pose proof (_buildStringPacket_ValueError text_bitmaps _ _ _ _ _ _ Hn) as Hv.
      subst build. congruence. }
  split; [| split].
  - split; [intros (packet & H); eauto |].
    intros (Hc & Hf). destruct build as [packet | e] eqn:E; [eauto |].
    destruct (Hraise e eq_refl) as [(_ & Hn) | (_ & _ & Hn)]; contradiction.
  - split.
    + intros H. destruct (Hraise _ H) as [(_ & Hn) | (He & _)];
        [exact Hn | discriminate].
    + apply _buildStringPacket_ValueError.
  - split.
    + intros H. destruct (Hraise _ H) as [(He & _) | (_ & Hc)];
        [discriminate | exact Hc].
    + intros (Hc & Hf). destruct build as [packet | e] eqn:E.
      * destruct (Hok packet eq_refl) as (_ & Hfits). contradiction.
      * destruct (Hraise e eq_refl) as [(_ & Hn) | (-> & _)];
          [contradiction | reflexivity].
Qed.

(** X4. Every packet the framer returns is 30 bytes longer than the
    bitmaps, which it carries unchanged from offset 30 on; its bytes
    [2:5] are [03 00 00], its bytes [13:16] are [00 00 0C] and the
    metadata bytes [18:20] are [00 01]. *)
Theorem buildStringPacket_fixed_bytes
        (text_bitmaps : bytes) (text_mode speed text_color_mode : Z)
        (text_color : Z * Z * Z) (text_bg_mode : Z) (text_bg_color : Z * Z * Z)
        (packet : bytes) :
  _buildStringPacket text_bitmaps text_mode speed text_color_mode
                     text_color text_bg_mode text_bg_color = Ok packet ->
  len packet = len text_bitmaps + 30
  /\ slice packet 30 (len packet) = text_bitmaps
  /\ slice packet 2 5 = [x03; x00; x00]
  /\ slice packet 13 16 = [x00; x00; x0c]
  /\ slice packet 18 20 = [x00; x01].
Proof.
  intros H.
  apply _buildStringPacket_Ok in H
    as (n0 & n1 & rest & t0 & t1 & p0 & p1 & p2 & p3 & c0 & c1 & c2 & c3 & H).
  cbv zeta in H. destruct H as (-> & Hmd & _).
  destruct text_color as [[fr fg] fb], text_bg_color as [[br bg] bb].
  assert (Hlen : List.length rest = 12%nat).
  { apply (f_equal (@List.length Z)) in Hmd.
    simpl in Hmd. rewrite length_map in Hmd. lia. }
  destruct rest as [| r0 [| r1 [| r2 [| r3 [| r4 [| r5 [| r6 [| r7 [| r8 [| r9
    [| r10 [| r11 [| ? ?]]]]]]]]]]]]]; try discriminate Hlen.
  cbn [app map metadata_ints] in Hmd.
  injection Hmd as H0 H1 _.
  assert (r0 = x00) as -> by (apply int_of_byte_inj; exact H0).
  assert (r1 = x01) as -> by (apply int_of_byte_inj; exact H1).
  set (md := [n0; n1; x00; x01; r2; r3; r4; r5; r6; r7; r8; r9; r10; r11]).
  set (hd := [t0; t1; x03; x00; x00; p0; p1; p2; p3; c0; c1; c2; c3; x00; x00; x0c]).
  assert (Hl : len (hd ++ md ++ text_bitmaps) = len text_bitmaps + 30).
  { unfold len. rewrite !length_app.
    change (List.length hd) with 16%nat. change (List.length md) with 14%nat. lia. }
  split; [exact Hl |].
  rewrite !slice_nonneg by (unfold len in *; lia).
  split; [| repeat split].
  change (skipn (Z.to_nat 30) (hd ++ md ++ text_bitmaps)) with text_bitmaps.
  apply firstn_all2. rewrite Hl. unfold len. lia.
Qed.

Lemma buildStringPacket_fixed_bytes_blank :
  _buildStringPacket blank_bitmaps 1 95 1 (255, 0, 0) 0 (0, 255, 0) = Ok blank_packet
  /\ len blank_packet = 98
  /\ slice blank_packet 2 5 = [x03; x00; x00].
Proof.
  split; [exact blank_packet_built |].
  destruct (buildStringPacket_fixed_bytes _ _ _ _ _ _ _ _ blank_packet_built)
    as (H1 & _ & H2 & _).
  split; [exact H1 | exact H2].
Defined.

(** ** [_ConstructBitMap] on images of any size *)

Section ConstructBitMapEdges.

Lemma lor_below (n a b : Z) :
  0 <= n -> 0 <= a < 2 ^ n -> 0 <= b < 2 ^ n -> 0 <= Z.lor a b < 2 ^ n.
Proof.
  intros Hn Ha Hb.
  rewrite <- (Z.mod_small a (2 ^ n)), <- (Z.mod_small b (2 ^ n)) by assumption.
  rewrite <- !Z.land_ones by assumption.
  rewrite <- Z.land_lor_distr_l, Z.land_ones by assumption.
  apply Z.mod_pos_bound. apply Z.pow_pos_nonneg; lia.
Qed.

Lemma for_each_Ok_each {X St : Type} (body : X -> St -> result St) (xs : list X) :
  forall s s', for_each xs body s = Ok s' ->
               forall x, In x xs -> exists s1 s2, body x s1 = Ok s2.
Proof.
  induction xs as [| x0 xs IH]; intros s s' H x Hin; [contradiction |].
  cbn [for_each] in H. destruct (body x0 s) as [s1 |] eqn:E; [| discriminate].
  cbn [bind] in H. destruct Hin as [<- | Hin]; [eauto | eapply IH; eauto].
Qed.

(** A loop whose body can only raise [e] can only raise [e], as long as
    the invariant [inv] on the index and the state is kept. *)
Lemma for_each_Raise_only {St : Type} (body : Z -> St -> result St)
      (inv : Z -> St -> Prop) (e : exn) (n : nat) :
  (forall x s, inv x s ->
     body x s = Raise e \/ exists s', body x s = Ok s' /\ inv (x + 1) s') ->
  forall (x0 : Z) (s : St), inv x0 s ->
    for_each (map (fun k => x0 + Z.of_nat k) (seq 0 n)) body s = Raise e
    \/ exists s', for_each (map (fun k => x0 + Z.of_nat k) (seq 0 n)) body s = Ok s'
                  /\ inv (x0 + Z.of_nat n) s'.
Proof.
  intros Hbody. induction n as [| n IH]; intros x0 s Hinv.
  - right. exists s. cbn. rewrite Z.add_0_r. auto.
  - cbn [seq map for_each]. rewrite Z.add_0_r.
    destruct (Hbody x0 s Hinv) as [-> | (s1 & -> & Hinv1)]; [left; reflexivity |].
    cbn [bind]. rewrite <- seq_shift, map_map.
    destruct (IH (x0 + 1) s1 Hinv1) as [E | (s' & E & Hinv')].
    + left. rewrite <- E. f_equal. apply map_ext. intros k. lia.
    + right. exists s'. split.
      * rewrite <- E. f_equal. apply map_ext. intros k. lia.
      * replace (x0 + Z.of_nat (S n)) with (x0 + 1 + Z.of_nat n) by lia. exact Hinv'.
Qed.

Variable im : PIL.Image.

Lemma pack_pixel_Raise_only (y x : Z) (st : Z * bytes) :
  partial_byte x st ->
  pack_pixel im y x st = Raise IndexError
  \/ exists st', pack_pixel im y x st = Ok st' /\ partial_byte (x + 1) st'.
Proof.
  destruct st as [byte bitmap]. intros (Hx & Hb). unfold pack_pixel.
  unfold PIL.getpixel. destruct (PIL.inside im _ _); [| left; reflexivity].
  right. cbn [bind].
  set (bit := Z.land (if PIL.px im _ _ then 255 else 0) 1).
  assert (Hbit : 0 <= bit < 2) by (subst bit; destruct (PIL.px im _ _); cbv; split; congruence).
  pose proof (Z.mod_pos_bound x 8 ltac:(lia)) as Hm.
  set (byte0 := if x mod 8 =? 0 then 0 else byte).
  assert (H0 : 0 <= byte0 < 2 ^ (x mod 8)).
  { subst byte0. destruct (x mod 8 =? 0) eqn:E.
    - split; [lia | apply Z.pow_pos_nonneg; lia].
    - apply Z.eqb_neq in E. destruct Hb as [Hb | Hb]; [contradiction | exact Hb]. }
  assert (H1 : 0 <= Z.lor byte0 (Z.shiftl bit (x mod 8)) < 2 ^ (x mod 8 + 1)).
  { apply lor_below; [lia | |].
    - rewrite Z.pow_add_r by lia. lia.
    - rewrite Z.shiftl_mul_pow2, Z.pow_add_r by lia.
      assert (0 < 2 ^ (x mod 8)) by (apply Z.pow_pos_nonneg; lia). nia. }
  assert (Hnext : (x + 1) mod 8 = 0 \/ (x + 1) mod 8 = x mod 8 + 1).
  { pose proof (Z.div_mod x 8 ltac:(lia)).
    destruct (Z.eq_dec (x mod 8) 7) as [E7 | N7].
    - left. symmetry. apply Z.mod_unique_pos with (q := x / 8 + 1); lia.
    - right. symmetry. apply Z.mod_unique_pos with (q := x / 8); lia. }
  pose proof (Z.mod_pos_bound (x + 1) 8 ltac:(lia)) as Hm1.
  destruct (x mod 8 =? 7) eqn:E7.
  - apply Z.eqb_eq in E7.
    replace (2 ^ (x mod 8 + 1)) with 256 in H1 by (rewrite E7; reflexivity).
    rewrite append_in_range by exact H1. cbn [bind]. eexists. split; [reflexivity |].
    split; [lia |]. left. destruct Hnext as [Hn | Hn]; [exact Hn | lia].
  - eexists. split; [reflexivity |]. split; [lia |].
    destruct Hnext as [Hn | Hn]; [left; exact Hn | right]. rewrite Hn. exact H1.
Qed.

Lemma row_Raise_only (y : Z) (st : Z * bytes) :
  for_each (range1 16) (pack_pixel im y) st = Raise IndexError
  \/ exists st', for_each (range1 16) (pack_pixel im y) st = Ok st'.
Proof.
  destruct (for_each_Raise_only (pack_pixel im y) partial_byte IndexError 16
              (pack_pixel_Raise_only y) 0 st) as [E | (st' & E & _)].
  - split; [lia | left; reflexivity].
  - left. exact E.
  - right. exists st'. exact E.
Qed.

Lemma rows_Raise_only (ys : list Z) :
  forall st,
    for_each ys (fun y => for_each (range1 16) (pack_pixel im y)) st = Raise IndexError
    \/ exists st', for_each ys (fun y => for_each (range1 16) (pack_pixel im y)) st
                   = Ok st'.
Proof.
  induction ys as [| y ys IH]; intros st; cbn [for_each]; [eauto |].
  destruct (row_Raise_only y st) as [-> | (st' & ->)]; [left; reflexivity |].
  cbn [bind]. apply IH.
Qed.

End ConstructBitMapEdges.

(** X5. [_ConstructBitMap] returns a bitmap exactly when the image is at
    least 16 pixels wide and 32 pixels high; the bitmap then has 64 bytes
    and packs the top-left 16x32 pixels. On any smaller image it raises
    [IndexError], and it raises nothing else. *)
Theorem ConstructBitMap_outcome (image : PIL.Image) :
  ((exists bitmap, _ConstructBitMap image = Ok bitmap)
   <-> 16 <= PIL.width image /\ 32 <= PIL.height image)
  /\ (forall bitmap, _ConstructBitMap image = Ok bitmap ->
        bitmap = packed_block (PIL.px image) /\ len bitmap = 64)
  /\ (forall e, _ConstructBitMap image = Raise e -> e = IndexError).
Proof.
  assert (Hsize : forall bitmap, _ConstructBitMap image = Ok bitmap ->
                    16 <= PIL.width image /\ 32 <= PIL.height image).
  { intros bitmap H. unfold _ConstructBitMap in H.
    destruct (for_each (range1 32) _ _) as [st |] eqn:E; [| discriminate].
    destruct (for_each_Ok_each _ _ _ _ E 31) as (s1 & s2 & Hrow).
    { unfold range1. apply in_map_iff. exists 31%nat. split; [reflexivity |].
      apply in_seq. cbn. lia. }
    destruct (for_each_Ok_each _ _ _ _ Hrow 15) as ([byte bm] & s4 & Hpix).
    { unfold range1. apply in_map_iff. exists 15%nat. split; [reflexivity |].
      apply in_seq. cbn. lia. }
    unfold pack_pixel, PIL.getpixel in Hpix. cbn [Z.ltb Z.compare] in Hpix.
    destruct (PIL.inside image 15 31) eqn:Hin; [| discriminate].
    unfold PIL.inside in Hin.
    apply andb_true_iff in Hin as [Hin Hy]. apply andb_true_iff in Hin as [Hin _].
    apply andb_true_iff in Hin as [_ Hx].
    apply Z.ltb_lt in Hx. apply Z.ltb_lt in Hy. lia. }
  split; [| split].
  - split; [intros (bitmap & H); eauto |].
    intros (Hw & Hh). eexists. apply _ConstructBitMap_packed; assumption.
  - intros bitmap H. destruct (Hsize bitmap H) as (Hw & Hh).
    rewrite _ConstructBitMap_packed in H by assumption. injection H as <-.
    split; reflexivity.
  - intros e H. unfold _ConstructBitMap in H.
    destruct (rows_Raise_only image (range1 32) (0, @nil byte)) as [E | ([byte bm] & E)];
      rewrite E in H; [injection H as <-; reflexivity | discriminate].
Qed.

(** ** Where the rasterizer puts the glyphs *)

Section Placement.

Variable font : PIL.Font.
Variable W : Z.
Variable y0 : Z.
Hypothesis HW : 0 <= W.

Lemma cells_same_width (chars : list ascii) (cells : list PIL.Image) :
  Forall2 (is_cell_of font W) chars cells ->
  Forall (fun cell => PIL.width cell = W) cells.
Proof. induction 1 as [| ? ? ? ? (? & _) _ IH]; constructor; auto. Qed.


End Placement.

Section StripShape.

Variable truetype : string -> Z -> result PIL.Font.

(** The stages behind every composite image the rasterizer returns. *)
Lemma composite_strip_inv (text : string) (font_path : option string)
      (font_size : option Z) (full_image : PIL.Image) (padded_width : Z) :
  composite_strip truetype text font_path font_size = Ok (full_image, padded_width) ->
  exists font p s cells x',
    truetype p s = Ok font
    /\ 0 <= cell_width font
    /\ Forall2 (is_cell_of font (cell_width font)) (list_ascii_of_string text) cells
    /\ for_each cells (paste_cell (cell_width font) (cell_top font))
                (PIL.mkImage padded_width 32 (fun _ _ => false), 0)
       = Ok (full_image, x').
Proof.
  unfold composite_strip.
  set (p := match font_path with
            | Some p => if (p =? "")%string then default_font_path else p
            | None => default_font_path
            end).
  set (s := match font_size with
            | Some s => if s =? 0 then 20 else s
            | None => 20
            end).
  destruct (truetype p s) as [font |] eqn:Hfont; [| discriminate]. cbn [bind].
  destruct (PIL.getbbox font "6") as [[[b0 b1] b2] b3] eqn:Hbbox.
  destruct (PIL.getmetrics font) as [ascent descent] eqn:Hmetrics.
  assert (HcW : cell_width font = b2 - b0)
    by (unfold cell_width; rewrite Hbbox; reflexivity).
  assert (HcT : cell_top font = 16 - (ascent + descent) / 2)
    by (unfold cell_top; rewrite Hmetrics; reflexivity).
  set (W := b2 - b0) in *.
  destruct (for_each _ (draw_cell font W) _) as [[imgs tw] |] eqn:Hcells;
    [| discriminate].
  cbn [bind]. apply draw_cells_Ok in Hcells as (-> & HW & cells & -> & Hcells).
  cbn [app]. rewrite Z.add_0_l.
  remember (list_ascii_of_string text) as chars0 eqn:Hchars.
  destruct Hcells as [| c cell chars cells Hcell Hcells].
  { change (getitem (@nil PIL.Image) 0) with (@Raise PIL.Image IndexError).
    cbn [bind]. discriminate. }
  specialize (HW ltac:(discriminate)).
  change (getitem (cell :: cells) 0) with (Ok cell). cbn [bind].
  pose proof Hcell as (Hcw & _). unfold PIL.size. rewrite Hcw.
  unfold PIL.new.
  destruct (_ <? 0) eqn:Epw; [discriminate |].
  cbn [orb Z.ltb Z.compare bind].
  destruct (for_each (cell :: cells) _ _) as [[full x'] |] eqn:Hpaste; [| discriminate].
  cbn [bind]. intros Hret. injection Hret as <- <-.
  exists font, p, s, (cell :: cells), x'. rewrite HcW, HcT.
  split; [exact Hfont |]. split; [exact HW |].
  split; [constructor; assumption | exact Hpaste].
Qed.

End StripShape.



(** ** When the rasterizer returns, and how long the stream is *)

Section StringToBitmapsOutcome.

Variable font : PIL.Font.
Variables (text : string) (font_path : option string) (font_size : option Z).

Let W : Z := cell_width font.
Let chars : list ascii := list_ascii_of_string text.
Let inks_ok : Prop := Forall (fun c => is_ok (PIL.ink font c) = true) chars.

Lemma cells_inks_ok (cs : list ascii) (cells : list PIL.Image) :
  Forall2 (is_cell_of font W) cs cells ->
  Forall (fun c => is_ok (PIL.ink font c) = true) cs.
Proof.
  induction 1 as [| ? ? ? ? (_ & _ & g & Hg & _) _ IH]; constructor; auto.
  rewrite Hg. reflexivity.
Qed.

Lemma composite_strip_succeeds :
  text <> ""%string -> 0 <= W -> inks_ok ->
  exists full_image padded_width,
    composite_strip (fun _ _ => Ok font) text font_path font_size
    = Ok (full_image, padded_width).
Proof.
  intros Htext HW Hinks. subst W chars inks_ok.
  unfold composite_strip, cell_width in *. cbn [bind].
  destruct (PIL.getbbox font "6") as [[[b0 b1] b2] b3].
  destruct (PIL.getmetrics font) as [ascent descent].
  set (W := b2 - b0) in *.
  destruct (draw_cells_succeed font W _ HW Hinks [] 0) as (imgs & tw & E).
  rewrite E. cbn [bind].
  apply draw_cells_Ok in E as (-> & _ & cells & -> & Hcells). cbn [app].
  destruct text as [| c0 text']; [contradiction Htext; reflexivity |].
  cbn [list_ascii_of_string] in *.
  inversion Hcells as [| ? cell ? cells' Hcell Hcells']; subst.
  change (getitem (cell :: cells') 0) with (Ok cell). cbn [bind].
  destruct Hcell as (Hcw & _). unfold PIL.size. rewrite Hcw.
  unfold PIL.new.
  set (total := 0 + len (c0 :: list_ascii_of_string text') * W).
  assert (Htotal : 0 <= total) by (subst total; unfold len; nia).
  pose proof (Z.mod_pos_bound (- total) 16 ltac:(lia)) as Hm.
  destruct (total + - total mod 16 <? 0) eqn:Epw; [apply Z.ltb_lt in Epw; lia |].
  cbn [orb Z.ltb Z.compare bind].
  destruct (paste_cells_Ok W (16 - (ascent + descent) / 2) (cell :: cells') HW
              (cells_same_width font W _ _ Hcells)
              (PIL.mkImage (total + - total mod 16) 32 (fun _ _ => false)) 0)
    as (full' & E & _).
  match goal with
  | |- context [for_each ?l ?f ?s0] =>
      change (for_each l f s0)
        with (for_each (cell :: cells') (paste_cell W (16 - (ascent + descent) / 2))
                       (PIL.mkImage (total + - total mod 16) 32 (fun _ _ => false), 0))
  end.
  rewrite E. cbn [bind]. eauto.
Qed.

End StringToBitmapsOutcome.

(** X7. With a loaded font, [_StringToBitmaps] returns a stream exactly
    when the text is not empty, the cell width is not negative and every
    character of the text can be drawn. For the empty text it raises
    [IndexError]; for a non-empty text and a negative cell width it raises
    [ValueError]. *)
Theorem StringToBitmaps_outcome (font : PIL.Font) (text : string)
        (font_path : option string) (font_size : option Z) :
  let bitmaps := _StringToBitmaps (fun _ _ => Ok font) text font_path font_size in
  ((exists text_bitmaps, bitmaps = Ok text_bitmaps)
   <-> text <> ""%string /\ 0 <= cell_width font
       /\ Forall (fun c => is_ok (PIL.ink font c) = true) (list_ascii_of_string text))
  /\ (text = ""%string -> bitmaps = Raise IndexError)
  /\ (text <> ""%string -> cell_width font < 0 -> bitmaps = Raise ValueError).
Proof.
  cbv zeta. split; [| split].
  - split.
    + intros (bm & H).
      apply _StringToBitmaps_Ok in H as (full & pw & _ & Hstrip & _).
      pose proof Hstrip as Hstrip'.
      apply composite_strip_Ok in Hstrip as (f & _ & _ & [= <-] & Htext & HW & _).
      apply composite_strip_inv in Hstrip'
        as (f & _ & _ & cells & _ & [= <-] & _ & Hcells & _).
      split; [exact Htext |]. split; [exact HW |].
      eapply cells_inks_ok; exact Hcells.
    + intros (Htext & HW & Hinks).
      destruct (composite_strip_succeeds font text font_path font_size Htext HW Hinks)
        as (full & pw & E).
      unfold _StringToBitmaps. rewrite E. cbn [bind].
      rewrite crop_loop_total. cbn [bind]. eauto.
  - intros ->.
    destruct (_StringToBitmaps_empty (fun _ _ => Ok font) font_path font_size)
      as (e & He & Hfont).
    rewrite He. f_equal. apply (Hfont font). reflexivity.
  - intros Htext HW. unfold _StringToBitmaps, composite_strip, cell_width in *.
    cbn [bind].
    destruct (PIL.getbbox font "6") as [[[b0 b1] b2] b3].
    destruct (PIL.getmetrics font) as [ascent descent].
    destruct text as [| c0 text']; [contradiction Htext; reflexivity |].
    cbn [list_ascii_of_string for_each]. unfold draw_cell at 1. unfold PIL.new.
    replace (b2 - b0 <? 0) with true by (symmetry; apply Z.ltb_lt; exact HW).
    reflexivity.
Qed.

Lemma length_stream (blocks : list bytes) :
  Forall (fun block => len block = 64) blocks ->
  len (List.concat (map (fun block => separator ++ block) blocks)) = 68 * len blocks.
Proof.
  induction 1 as [| b blocks Hb _ IH]; [reflexivity |].
  cbn [map List.concat]. unfold len in *.
  rewrite !length_app. cbn [List.length separator]. lia.
Qed.

(** X8. The stream holds one 68-byte unit (separator and block) per
    started 16 columns of text, not one per character: with cell width
    [W] its length is [68 * ceil(len(text) * W / 16)]. *)
Theorem StringToBitmaps_stream_length (font : PIL.Font) (text : string)
        (font_path : option string) (font_size : option Z) (text_bitmaps : bytes) :
  _StringToBitmaps (fun _ _ => Ok font) text font_path font_size = Ok text_bitmaps ->
  len text_bitmaps
  = 68 * ((Z.of_nat (String.length text) * cell_width font + 15) / 16).
Proof.
  intros H.
  apply _StringToBitmaps_Ok in H as (full & pw & blocks & Hstrip & _ & -> & Hb & Hn).
  apply composite_strip_Ok in Hstrip as (f & _ & _ & [= <-] & _ & HW & -> & _).
  rewrite length_stream by exact Hb. rewrite Hn, Z.div_mul by lia. reflexivity.
Qed.

Lemma StringToBitmaps_stream_length_stripe_ABC :
  exists text_bitmaps,
    _StringToBitmaps (fun _ _ => Ok stripe_font) "ABC" None None = Ok text_bitmaps
    /\ len text_bitmaps = 136.
Proof.
  assert (H : { bm | _StringToBitmaps (fun _ _ => Ok stripe_font) "ABC" None None = Ok bm })
    by (eexists; vm_compute; reflexivity).
  destruct H as [bm H]. exists bm. split; [exact H |].
  exact (StringToBitmaps_stream_length stripe_font "ABC" None None bm H).
Defined.

(** X9. In a stream of separator-and-block units the separator count is
    never below the number of blocks, and it is the number of blocks
    whenever no block contains the bytes [05 FF FF FF]. *)
Theorem separator_count_of_stream (blocks : list bytes) :
  let stream := List.concat (map (fun block => separator ++ block) blocks) in
  len blocks <= count stream separator
  /\ (Forall separator_free blocks -> count stream separator = len blocks).
Proof. cbv zeta. apply separator_count_of_stream_lemma. Qed.

(** X10. In every packet produced from a text the stored glyph count is
    at least the number of blocks of the bitmap sequence; when no block
    contains the bytes [05 FF FF FF] it is the number of blocks, and the
    body-length field is 14 plus 68 times the stored glyph count. *)
Theorem packet_glyph_count_of_separator_free_blocks
        (truetype : string -> Z -> result PIL.Font)
        (text : string) (font_size : Z) (font_path : option string)
        (text_mode speed text_color_mode : Z) (text_color : Z * Z * Z)
        (text_bg_mode : Z) (text_bg_color : Z * Z * Z) (packet : bytes) :
  setMode_data truetype text font_size font_path text_mode speed text_color_mode
               text_color text_bg_mode text_bg_color = Ok packet ->
  exists blocks,
    slice packet 30 (len packet)
    = List.concat (map (fun block => separator ++ block) blocks)
    /\ Forall (fun block => len block = 64) blocks
    /\ len blocks <= from_bytes (slice packet 16 18)
    /\ (Forall separator_free blocks ->
          from_bytes (slice packet 16 18) = len blocks
          /\ from_bytes (slice packet 5 9) = 14 + 68 * from_bytes (slice packet 16 18)).
Proof.
  unfold setMode_data.
  destruct (_StringToBitmaps truetype text font_path (Some font_size))
    as [text_bitmaps |] eqn:Hbm; [| discriminate].
  cbn [bind]. intros H.
  apply _StringToBitmaps_Ok in Hbm as (_ & _ & blocks & _ & _ & -> & Hblocks & _).
  exists blocks.
  pose proof (separator_count_of_stream_lemma blocks) as (Hle & Heq).
  apply _buildStringPacket_Ok in H
    as (n0 & n1 & rest & t0 & t1 & p0 & p1 & p2 & p3 & c0 & c1 & c2 & c3 & H).
  cbv zeta in H. destruct H as (-> & Hmd & Hcount & _ & Hp & _).
  destruct text_color as [[fr fg] fb], text_bg_color as [[br bg] bb].
  assert (Hlen : List.length rest = 12%nat).
  { apply (f_equal (@List.length Z)) in Hmd.
    simpl in Hmd. rewrite length_map in Hmd. lia. }
  destruct rest as [| r0 [| r1 [| r2 [| r3 [| r4 [| r5 [| r6 [| r7 [| r8 [| r9
    [| r10 [| r11 [| ? ?]]]]]]]]]]]]]; try discriminate Hlen.
  set (stream := List.concat (map (fun block => separator ++ block) blocks)) in *.
  set (md := [n0; n1; r0; r1; r2; r3; r4; r5; r6; r7; r8; r9; r10; r11]) in *.
  set (hd := [t0; t1; x03; x00; x00; p0; p1; p2; p3; c0; c1; c2; c3; x00; x00; x0c]).
  assert (Hl : len (hd ++ md ++ stream) = len stream + 30).
  { unfold len. rewrite !length_app.
    change (List.length hd) with 16%nat. change (List.length md) with 14%nat. lia. }
  assert (H1618 : slice (hd ++ md ++ stream) 16 18 = [n0; n1])
    by (rewrite slice_nonneg by lia; reflexivity).
  assert (H59 : slice (hd ++ md ++ stream) 5 9 = [p0; p1; p2; p3])
    by (rewrite slice_nonneg by lia; reflexivity).
  rewrite H1618, H59, Hcount, Hp.
  split.
  { rewrite slice_nonneg by (unfold len in *; lia).
    change (skipn (Z.to_nat 30) (hd ++ md ++ stream)) with stream.
    apply firstn_all2. rewrite Hl. unfold len. lia. }
  split; [exact Hblocks |]. split; [exact Hle |].
  intros Hfree. rewrite (Heq Hfree). split; [reflexivity |].
  unfold len at 1. rewrite length_app. change (List.length md) with 14%nat.
  pose proof (length_stream blocks Hblocks) as Hs. fold stream in Hs.
  unfold len in *. lia.
Qed.

Lemma packet_glyph_count_stripe_A :
  exists packet,
    setMode_data (fun _ _ => Ok stripe_font) "A" 16 None 1 95 1 (255, 0, 0) 0 (0, 255, 0)
    = Ok packet
    /\ exists blocks : list bytes,
         Forall (fun block => len block = 64) blocks
         /\ len blocks <= from_bytes (slice packet 16 18).
Proof.
  assert (H : { packet | setMode_data (fun _ _ => Ok stripe_font) "A" 16 None
                                      1 95 1 (255, 0, 0) 0 (0, 255, 0) = Ok packet })
    by (eexists; vm_compute; reflexivity).
  destruct H as [packet H]. exists packet. split; [exact H |].
  destruct (packet_glyph_count_of_separator_free_blocks _ _ _ _ _ _ _ _ _ _ packet H)
    as (blocks & _ & Hb & Hle & _).
  exists blocks. split; [exact Hb | exact Hle].
Defined.

(** ** The packer loop on any image *)

Lemma packed_block_bits (p : Z -> Z -> bool) (y b k : Z) :
  0 <= y < 32 -> 0 <= b < 2 -> 0 <= k < 8 ->
  Z.testbit (int_of_byte (nth (Z.to_nat (2 * y + b)) (packed_block p) x00)) k
  = p (8 * b + k) y.
Proof.
  intros Hy Hb Hk.
  replace (Z.to_nat (2 * y + b)) with (2 * Z.to_nat y + Z.to_nat b)%nat by lia.
  rewrite nth_packed_block by lia.
  rewrite low_byte_value, Z.mod_small by apply pack8_range.
  rewrite pack8_testbit by exact Hk. rewrite !Z2Nat.id by lia. reflexivity.
Qed.

(** X11. The packer loop of [_StringToBitmaps] never raises, whatever the
    image and whatever [padded_width]: it returns one 64-byte block per
    started 16 columns of [padded_width] (none when [padded_width] is not
    positive), and a pixel of a window that lies outside the image is
    packed as off. *)
Theorem crop_loop_any_image (strip : PIL.Image) (padded_width : Z) :
  exists blocks,
    crop_loop strip padded_width 0 [] = Ok blocks
    /\ len blocks = Z.max 0 ((padded_width + 15) / 16)
    /\ Forall (fun block => len block = 64) blocks
    /\ forall i y b k,
         0 <= i < len blocks -> 0 <= y < 32 -> 0 <= b < 2 -> 0 <= k < 8 ->
         Z.testbit
           (int_of_byte (nth (Z.to_nat (2 * y + b)) (nth (Z.to_nat i) blocks []) x00)) k
         = PIL.inside strip (16 * i + (8 * b + k)) y
           && PIL.px strip (16 * i + (8 * b + k)) y.
Proof.
  eexists. split; [apply crop_loop_total |].
  set (n := Z.to_nat ((padded_width + 15) / 16)).
  assert (Hlen : len (map (fun j => packed_block (window strip (16 * Z.of_nat j)))
                          (seq 0 n)) = Z.of_nat n)
    by (unfold len; rewrite length_map, length_seq; reflexivity).
  split; [rewrite Hlen; subst n; lia |]. split.
  - apply Forall_forall. intros block Hin.
    apply in_map_iff in Hin as (j & <- & _). reflexivity.
  - rewrite Hlen. intros i y b k Hi Hy Hb Hk.
    rewrite (nth_indep _ [] (packed_block (window strip (16 * Z.of_nat 0%nat))))
      by (rewrite length_map, length_seq; lia).
    rewrite (map_nth (fun j => packed_block (window strip (16 * Z.of_nat j)))).
    rewrite seq_nth by lia.
    rewrite packed_block_bits by assumption.
    unfold window. rewrite Nat.add_0_l, Z2Nat.id by lia. reflexivity.
Qed.

(** ** [setMode] without a connection *)

(** X12. When [self.conn] is falsy, [setMode] neither connects nor sends:
    it returns the packet it built (or logs the error of building it and
    returns [False]) and leaves the link as it was. *)
Theorem setMode_without_connection
        {World : Type} (truetype : string -> Z -> result PIL.Font)
        (self : Self World)
        (text : string) (font_size : Z) (font_path : option string)
        (text_mode speed text_color_mode : Z) (text_color : Z * Z * Z)
        (text_bg_mode : Z) (text_bg_color : Z * Z * Z)
        (w : World) (tr : list event) :
  conn self = None ->
  setMode truetype self text font_size font_path text_mode speed text_color_mode
          text_color text_bg_mode text_bg_color (w, tr)
  = match setMode_data truetype text font_size font_path text_mode speed
                       text_color_mode text_color text_bg_mode text_bg_color with
    | Ok data => (Ok (RetData data), (w, tr))
    | Raise e => (Ok RetFalse, (w, tr ++ [Logged e]))
    end.
Proof.
  intros Hconn. unfold setMode, try_except, io_bind, lift. rewrite Hconn.
  destruct (setMode_data _ _ _ _ _ _ _ _ _ _); reflexivity.
Qed.

Lemma setMode_without_connection_blank :
  conn (mkSelf nat None) = None
  /\ exists data,
       setMode (fun _ _ => Ok stripe_font) (mkSelf nat None) "A" 16 None
               1 95 1 (255, 0, 0) 0 (0, 255, 0) (0%nat, [])
       = (Ok (RetData data), (0%nat, [])).
Proof.
  split; [reflexivity |].
  assert (H : { data | setMode_data (fun _ _ => Ok stripe_font) "A" 16 None
                                    1 95 1 (255, 0, 0) 0 (0, 255, 0) = Ok data })
    by (eexists; vm_compute; reflexivity).
  destruct H as [data H]. exists data.
  rewrite (setMode_without_connection (fun _ _ => Ok stripe_font) (mkSelf nat None)
             "A" 16 None 1 95 1 (255, 0, 0) 0 (0, 255, 0) 0%nat [] eq_refl).
  rewrite H. reflexivity.
Defined.
